(** * A shallow embedding of [webflow.py]: the [WebflowApi] client.

    The client keeps no state of its own besides the class attribute
    [HEADERS]; every operation sends HTTP requests through
    [_webflow_request].  We model:
    - JSON values as an inductive type ([json]), objects as association
      lists with the insertion semantics of a Python [dict];
    - the upstream service as a function from requests to responses, a
      response body being [None] when it is not valid JSON;
    - the effect of the client as a monad threading the trace of the
      requests issued so far and returning a Python-style outcome
      (a value, a raised exception, or [NoFuel] when the [while] loop of
      [list_items] has not finished within the given number of
      iterations). *)

From Stdlib Require Import ZArith NArith List String Ascii Bool Lia.
Import ListNotations.
Open Scope string_scope.
Open Scope Z_scope.
Set Warnings "-register-all".

(** ** JSON values *)

Inductive json : Type :=
| JNull
| JBool (b : bool)
| JNum (z : Z)
| JStr (s : string)
| JArr (l : list json)
| JObj (kvs : list (string * json)).

(** [d[k]] on a dict. *)
Fixpoint dict_get (k : string) (kvs : list (string * json)) : option json :=
  match kvs with
  | [] => None
  | (k', v) :: rest => if String.eqb k k' then Some v else dict_get k rest
  end.

(** [d[k] = v] on a dict: replaces the value in place when the key is
    present, appends the key otherwise (Python keeps insertion order). *)
Fixpoint dict_set (k : string) (v : json) (kvs : list (string * json))
  : list (string * json) :=
  match kvs with
  | [] => [(k, v)]
  | (k', v') :: rest =>
      if String.eqb k k' then (k', v) :: rest else (k', v') :: dict_set k v rest
  end.

(** ** HTTP requests and responses *)

Record request : Type := mk_request {
  req_method : string;
  req_url : string;
  req_headers : list (string * string);
  req_json : option json        (* the [json=] keyword argument *)
}.

Record response : Type := mk_response {
  status_code : Z;
  content : option json         (* [None]: the body is not valid JSON *)
}.

(** Exceptions a call can raise. *)
Inductive error : Type :=
| AttributeError (name : string)   (* missing Django setting *)
| JSONDecodeError                  (* [res.json()] on a non-JSON body *)
| HTTPError (res : response)       (* [res.raise_for_status()] *)
| KeyError (k : string)
| TypeError.

Inductive outcome (A : Type) : Type :=
| Ok (a : A)
| Err (e : error)
| NoFuel.
Arguments Ok {A} a.
Arguments Err {A} e.
Arguments NoFuel {A}.

(** ** The client monad: trace of issued requests, and an outcome. *)

Definition M (A : Type) : Type := list request -> list request * outcome A.

Definition ret {A} (a : A) : M A := fun tr => (tr, Ok a).
Definition raise {A} (e : error) : M A := fun tr => (tr, Err e).
Definition bind {A B} (m : M A) (f : A -> M B) : M B :=
  fun tr => match m tr with
            | (tr', Ok a) => f a tr'
            | (tr', Err e) => (tr', Err e)
            | (tr', NoFuel) => (tr', NoFuel)
            end.
Definition out_of_fuel {A} : M A := fun tr => (tr, NoFuel).

Notation "x <- m ;; k" := (bind m (fun x => k))
  (at level 61, m at next level, right associativity).

(** Issue a request on the wire: it is appended to the trace. *)
Definition send (server : request -> response) (r : request) : M response :=
  fun tr => (List.app tr [r], Ok (server r)).

(** ** Decimal rendering of Python [int]s (as in an f-string). *)

Fixpoint digits (fuel : nat) (n : N) (acc : string) : string :=
  match fuel with
  | O => acc
  | S f =>
      let acc' := String (ascii_of_N (48 + N.modulo n 10)) acc in
      if N.eqb (N.div n 10) 0 then acc' else digits f (N.div n 10) acc'
  end.

Definition N_to_dec (n : N) : string := digits (S (N.size_nat n)) n "".

Definition Z_to_dec (z : Z) : string :=
  if z <? 0 then "-" ++ N_to_dec (Z.abs_N z) else N_to_dec (Z.to_N z).

(** ** Class attributes *)

Definition WEBFLOW_URL : string := "https://api.webflow.com".

(** [HEADERS] is built when the class body runs, reading
    [settings.WEBFLOW_API_KEY]; [None] is a setting that is not defined,
    on which Django raises [AttributeError]. *)
Definition HEADERS_of (WEBFLOW_API_KEY : option string)
  : outcome (list (string * string)) :=
  match WEBFLOW_API_KEY with
  | None => Err (AttributeError "WEBFLOW_API_KEY")
  | Some key =>
      Ok [("Accept-Version", "1.0.0");
          ("Authorization", "Bearer " ++ key);
          ("content-type", "application/json")]
  end.

(** ** The methods of [WebflowApi] *)

Section Client.

(** The upstream service, and the value of the class attribute [HEADERS]. *)
Variable server : request -> response.
Variable HEADERS : list (string * string).

(** [_webflow_request]: one [requests.request] call, then [print(res.json())]
    (which parses the body first), then [res.raise_for_status()] (which
    raises for [400 <= status < 600]), then [return res.json()]. *)
Definition _webflow_request (method path : string) (json_arg : option json)
  : M json :=
  res <- send server (mk_request method (WEBFLOW_URL ++ "/" ++ path)
                                 HEADERS json_arg) ;;
  match content res with
  | None => raise JSONDecodeError
  | Some j =>
      if (400 <=? status_code res) && (status_code res <? 600)
      then raise (HTTPError res)
      else ret j
  end.

Definition info : M json := _webflow_request "GET" "info" None.
Definition list_sites : M json := _webflow_request "GET" "sites" None.
Definition get_site (site_id : string) : M json :=
  _webflow_request "GET" ("sites/" ++ site_id) None.
Definition publish_site (site_id : string) (domain_names : json) : M json :=
  let domains := JObj [("domains", domain_names)] in
  _webflow_request "POST" ("sites/" ++ site_id ++ "/publish") (Some domains).
Definition list_domains (site_id : string) : M json :=
  _webflow_request "GET" ("sites/" ++ site_id ++ "/domains") None.
Definition list_collections (site_id : string) : M json :=
  _webflow_request "GET" ("sites/" ++ site_id ++ "/collections") None.
Definition get_collection (collection_id : string) : M json :=
  _webflow_request "GET" ("collections/" ++ collection_id) None.

(** The [else] branch of [list_items] (the call [list_items(..., all=False)]). *)
Definition list_items_page (collection_id : string) (limit offset : Z) : M json :=
  _webflow_request "GET"
    ("collections/" ++ collection_id ++ "/items?limit=" ++ Z_to_dec limit
       ++ "&offset=" ++ Z_to_dec offset) None.

(** Iterating a JSON value, as [list.extend] does. *)
Definition py_iter (v : json) : M (list json) :=
  match v with
  | JArr l => ret l
  | JStr s => ret (map (fun c => JStr (String c EmptyString)) (list_ascii_of_string s))
  | JObj kvs => ret (map (fun kv => JStr (fst kv)) kvs)
  | _ => raise TypeError
  end.

(** [resp[k]]. *)
Definition getitem (resp : json) (k : string) : M json :=
  match resp with
  | JObj kvs => match dict_get k kvs with
                | Some v => ret v
                | None => raise (KeyError k)
                end
  | _ => raise TypeError
  end.

(** [resp[k] = v]. *)
Definition setitem (resp : json) (k : string) (v : json) : M json :=
  match resp with
  | JObj kvs => ret (JObj (dict_set k v kvs))
  | _ => raise TypeError
  end.

(** The right operand of [len(all_items) < resp['total']] ([bool] is an
    [int] in Python). *)
Definition as_int (v : json) : M Z :=
  match v with
  | JNum z => ret z
  | JBool b => ret (if b then 1 else 0)
  | _ => raise TypeError
  end.

(** The [while] loop of [list_items(all=True)], run for at most [fuel]
    iterations. *)
Fixpoint list_items_loop (fuel : nat) (collection_id : string) (offset : Z)
    (all_items : list json) (resp : json) : M (list json * json) :=
  t <- getitem resp "total" ;;
  total <- as_int t ;;
  if Z.of_nat (List.length all_items) <? total then
    match fuel with
    | O => out_of_fuel
    | S fuel' =>
        let offset := offset + 100 in
        resp <- list_items_page collection_id 100 offset ;;
        it <- getitem resp "items" ;;
        items <- py_iter it ;;
        list_items_loop fuel' collection_id offset (List.app all_items items) resp
    end
  else ret (all_items, resp).

Definition list_items (fuel : nat) (collection_id : string) (limit offset : Z)
    (all : bool) : M json :=
  if all then
    resp <- list_items_page collection_id 100 offset ;;
    it <- getitem resp "items" ;;
    all_items <- py_iter it ;;
    r <- list_items_loop fuel collection_id offset all_items resp ;;
    let '(all_items, resp) := r in
    resp <- setitem resp "items" (JArr all_items) ;;
    resp <- setitem resp "count" (JNum (Z.of_nat (List.length all_items))) ;;
    ret resp
  else list_items_page collection_id limit offset.

Definition get_item (collection_id item_id : string) : M json :=
  _webflow_request "GET" ("collections/" ++ collection_id ++ "/items/" ++ item_id) None.

Definition live_suffix (live : bool) : string :=
  if live then "?live=true" else "".

Definition create_item (collection_id : string) (item_data : json) (live : bool)
  : M json :=
  let data := dict_set "fields" item_data [] in
  let l := live_suffix live in
  _webflow_request "POST" ("collections/" ++ collection_id ++ "/items" ++ l)
    (Some (JObj data)).

Definition update_item (collection_id item_id : string) (item_data : json)
    (live : bool) : M json :=
  let data := dict_set "fields" item_data [] in
  let l := live_suffix live in
  _webflow_request "PUT"
    ("collections/" ++ collection_id ++ "/items/" ++ item_id ++ l)
    (Some (JObj data)).

Definition patch_item (collection_id item_id : string) (item_data : json)
    (live : bool) : M json :=
  let data := dict_set "fields" item_data [] in
  let l := live_suffix live in
  _webflow_request "PATCH"
    ("collections/" ++ collection_id ++ "/items/" ++ item_id ++ l)
    (Some (JObj data)).

Definition remove_item (collection_id item_id : string) : M json :=
  _webflow_request "DELETE" ("collections/" ++ collection_id ++ "/items/" ++ item_id) None.

Definition list_webhooks (site_id : string) : M json :=
  _webflow_request "GET" ("sites/" ++ site_id ++ "/webhooks") None.

Definition get_webhook (site_id webhook_id : string) : M json :=
  _webflow_request "GET" ("sites/" ++ site_id ++ "/webhooks/" ++ webhook_id) None.

Definition create_webhook (site_id triggerType url : string) (filter : json)
  : M json :=
  let data := JObj [("triggerType", JStr triggerType); ("url", JStr url);
                    ("filter", filter)] in
  _webflow_request "POST" ("sites/" ++ site_id ++ "/webhooks") (Some data).

Definition remove_webhook (site_id webhook_id : string) : M json :=
  _webflow_request "DELETE" ("sites/" ++ site_id ++ "/webhooks/" ++ webhook_id) None.

End Client.

(** ** Calls, and the client as a whole *)

(** One call of a public method of [WebflowApi], with its arguments. *)
Inductive call : Type :=
| Info
| ListSites
| GetSite (site_id : string)
| PublishSite (site_id : string) (domain_names : json)
| ListDomains (site_id : string)
| ListCollections (site_id : string)
| GetCollection (collection_id : string)
| ListItems (collection_id : string) (limit offset : Z) (all : bool)
| GetItem (collection_id item_id : string)
| CreateItem (collection_id : string) (item_data : json) (live : bool)
| UpdateItem (collection_id item_id : string) (item_data : json) (live : bool)
| PatchItem (collection_id item_id : string) (item_data : json) (live : bool)
| RemoveItem (collection_id item_id : string)
| ListWebhooks (site_id : string)
| GetWebhook (site_id webhook_id : string)
| CreateWebhook (site_id triggerType url : string) (filter : json)
| RemoveWebhook (site_id webhook_id : string).

Definition run_call (server : request -> response) (H : list (string * string))
    (fuel : nat) (c : call) : M json :=
  match c with
  | Info => info server H
  | ListSites => list_sites server H
  | GetSite s => get_site server H s
  | PublishSite s d => publish_site server H s d
  | ListDomains s => list_domains server H s
  | ListCollections s => list_collections server H s
  | GetCollection c => get_collection server H c
  | ListItems c l o a => list_items server H fuel c l o a
  | GetItem c i => get_item server H c i
  | CreateItem c d l => create_item server H c d l
  | UpdateItem c i d l => update_item server H c i d l
  | PatchItem c i d l => patch_item server H c i d l
  | RemoveItem c i => remove_item server H c i
  | ListWebhooks s => list_webhooks server H s
  | GetWebhook s w => get_webhook server H s w
  | CreateWebhook s t u f => create_webhook server H s t u f
  | RemoveWebhook s w => remove_webhook server H s w
  end.

(** Loading the class (which evaluates [HEADERS] from the Django setting)
    and then making one call on a fresh client: the requests issued, and
    the outcome. *)
Definition client (WEBFLOW_API_KEY : option string)
    (server : request -> response) (fuel : nat) (c : call)
  : list request * outcome json :=
  match HEADERS_of WEBFLOW_API_KEY with
  | Ok H => run_call server H fuel c []
  | Err e => ([], Err e)
  | NoFuel => ([], NoFuel)
  end.

(** The part of a URL after its first [?], if any. *)
Fixpoint query_string (s : string) : option string :=
  match s with
  | EmptyString => None
  | String c s' => if Ascii.eqb c "?" then Some s' else query_string s'
  end.

(** ** A simulated upstream: a collection ["col"] of 250 items served in
    pages of at most 100 (by the [limit] and [offset] of the URL). *)

Definition items250 : list json := map (fun i => JNum (Z.of_nat i)) (seq 0 250).

Definition page_envelope (offset : nat) : json :=
  let page := firstn 100 (skipn offset items250) in
  JObj [("items", JArr page); ("count", JNum (Z.of_nat (List.length page)));
        ("limit", JNum 100); ("offset", JNum (Z.of_nat offset));
        ("total", JNum 250)].

Definition server250 (r : request) : response :=
  if negb (String.eqb (req_method r) "GET")
  then mk_response 405 (Some (JObj [("msg", JStr "method not allowed")]))
  else if String.eqb (req_url r)
            "https://api.webflow.com/collections/col/items?limit=100&offset=0"
  then mk_response 200 (Some (page_envelope 0))
  else if String.eqb (req_url r)
            "https://api.webflow.com/collections/col/items?limit=100&offset=100"
  then mk_response 200 (Some (page_envelope 100))
  else if String.eqb (req_url r)
            "https://api.webflow.com/collections/col/items?limit=100&offset=200"
  then mk_response 200 (Some (page_envelope 200))
  else mk_response 404 (Some (JObj [("msg", JStr "not found")])).

Definition page_request (H : list (string * string)) (offset : string) : request :=
  mk_request "GET"
    ("https://api.webflow.com/collections/col/items?limit=100&offset=" ++ offset)
    H None.

(** ** Sanity checks of the embedding *)

Example Z_to_dec_0 : Z_to_dec 0 = "0". Proof. reflexivity. Qed.
Example Z_to_dec_200 : Z_to_dec 200 = "200". Proof. reflexivity. Qed.
Example Z_to_dec_neg : Z_to_dec (-37) = "-37". Proof. reflexivity. Qed.
Example Z_to_dec_big : Z_to_dec 1000000 = "1000000". Proof. reflexivity. Qed.

(** ** Claims *)

(** C1: with [all=True] against the 250-item collection served in pages
    of 100, [list_items] issues exactly three page requests, at offsets 0,
    100 and 200, and returns the last page's envelope with [items]
    replaced by the 250 items in server order and [count] set to 250
    (whatever [limit] is passed, given enough loop iterations). *)
Lemma list_items_all_250 (H : list (string * string)) (limit : Z) (fuel : nat)
    (Hfuel : (2 <= fuel)%nat) :
  list_items server250 H fuel "col" limit 0 true [] =
  ([page_request H "0"; page_request H "100"; page_request H "200"],
   Ok (JObj [("items", JArr items250); ("count", JNum 250);
             ("limit", JNum 100); ("offset", JNum 200); ("total", JNum 250)])).
Proof.
  do 2 (destruct fuel as [|fuel]; [lia|]).
  destruct fuel; vm_compute; reflexivity.
Qed.

Lemma list_items_all_250_witness :
  (2 <= 2)%nat /\
  list_items server250 [] 2 "col" 100 0 true [] =
  ([page_request [] "0"; page_request [] "100"; page_request [] "200"],
   Ok (JObj [("items", JArr items250); ("count", JNum 250);
             ("limit", JNum 100); ("offset", JNum 200); ("total", JNum 250)])).
Proof. split; [lia | apply (list_items_all_250 [] 100 2); lia]. Defined.

(** ** Invariants of the trace of requests *)

Section Preserves.

Variable P : request -> Prop.

(** A computation preserves [P] when every request it issues satisfies [P]. *)
Definition preserves {A} (m : M A) : Prop :=
  forall tr, Forall P tr -> Forall P (fst (m tr)).

Lemma ret_preserves {A} (a : A) : preserves (ret a).
Proof. intros tr Htr. exact Htr. Qed.

Lemma raise_preserves {A} (e : error) : preserves (A:=A) (raise e).
Proof. intros tr Htr. exact Htr. Qed.

Lemma out_of_fuel_preserves {A} : preserves (A:=A) out_of_fuel.
Proof. intros tr Htr. exact Htr. Qed.

Lemma bind_preserves {A B} (m : M A) (f : A -> M B) :
  preserves m -> (forall a, preserves (f a)) -> preserves (bind m f).
Proof.
  intros Hm Hf tr Htr. unfold bind.
  specialize (Hm tr Htr).
  destruct (m tr) as [tr' [a|e|]]; simpl in *; auto.
  apply Hf; exact Hm.
Qed.

Lemma send_preserves server r : P r -> preserves (send server r).
Proof.
  intros Hr tr Htr. simpl. apply Forall_app; auto.
Qed.

Lemma webflow_request_preserves server H method path j :
  P (mk_request method (WEBFLOW_URL ++ "/" ++ path) H j) ->
  preserves (_webflow_request server H method path j).
Proof.
  intros Hr. unfold _webflow_request.
  apply bind_preserves; [apply send_preserves; exact Hr|].
  intros res. destruct (content res) as [j'|];
    [destruct (_ && _)|]; auto using ret_preserves, raise_preserves.
Qed.

Lemma py_iter_preserves v : preserves (py_iter v).
Proof. destruct v; first [apply ret_preserves | apply raise_preserves]. Qed.

Lemma getitem_preserves v k : preserves (getitem v k).
Proof.
  destruct v; simpl; auto using raise_preserves.
  destruct (dict_get k kvs); auto using ret_preserves, raise_preserves.
Qed.

Lemma setitem_preserves v k x : preserves (setitem v k x).
Proof. destruct v; first [apply ret_preserves | apply raise_preserves]. Qed.

Lemma as_int_preserves v : preserves (as_int v).
Proof. destruct v; first [apply ret_preserves | apply raise_preserves]. Qed.

(** The [all=True] branch preserves [P] as soon as every page request
    with the default [limit] does. *)
Lemma list_items_loop_preserves server H c :
  (forall o, preserves (list_items_page server H c 100 o)) ->
  forall fuel o items resp,
    preserves (list_items_loop server H fuel c o items resp).
Proof.
  intros Hpage fuel. induction fuel as [|fuel IH]; intros o items resp; simpl;
    (apply bind_preserves; [apply getitem_preserves|]; intros t;
     apply bind_preserves; [apply as_int_preserves|]; intros total;
     destruct (_ <? _); [|apply ret_preserves]).
  - apply out_of_fuel_preserves.
  - apply bind_preserves; [apply Hpage|]; intros resp'.
    apply bind_preserves; [apply getitem_preserves|]; intros it.
    apply bind_preserves; [apply py_iter_preserves|]; intros items'.
    apply IH.
Qed.

Lemma list_items_all_preserves server H fuel c limit o :
  (forall o, preserves (list_items_page server H c 100 o)) ->
  preserves (list_items server H fuel c limit o true).
Proof.
  intros Hpage. simpl.
  apply bind_preserves; [apply Hpage|]; intros resp.
  apply bind_preserves; [apply getitem_preserves|]; intros it.
  apply bind_preserves; [apply py_iter_preserves|]; intros items.
  apply bind_preserves; [apply list_items_loop_preserves; exact Hpage|].
  intros [all_items resp'].
  apply bind_preserves; [apply setitem_preserves|]; intros r1.
  apply bind_preserves; [apply setitem_preserves|]; intros r2.
  apply ret_preserves.
Qed.

End Preserves.

(** C6: whichever method is called with whichever arguments, every
    request the client issues carries exactly the three headers
    [Accept-Version: 1.0.0], [Authorization: Bearer <token>] with the
    token of the configuration, and [content-type: application/json]. *)
Theorem client_request_headers (key : string) (server : request -> response)
    (fuel : nat) (c : call) :
  Forall (fun r => req_headers r =
                   [("Accept-Version", "1.0.0");
                    ("Authorization", "Bearer " ++ key);
                    ("content-type", "application/json")])
    (fst (client (Some key) server fuel c)).
Proof.
  unfold client. simpl HEADERS_of. cbv iota.
  set (H := [("Accept-Version", "1.0.0"); ("Authorization", "Bearer " ++ key);
             ("content-type", "application/json")]).
  assert (Hpage : forall cid o,
             preserves (fun r => req_headers r = H) (list_items_page server H cid 100 o)).
  { intros cid o. apply webflow_request_preserves. reflexivity. }
  destruct c; simpl run_call;
    try (apply webflow_request_preserves; [reflexivity | constructor]).
  destruct all.
  - apply list_items_all_preserves; [exact (Hpage collection_id) | constructor].
  - apply webflow_request_preserves; [reflexivity | constructor].
Qed.

(** C9: in the [all=True] branch of [list_items] the [limit] argument is
    ignored: the run is the same as with [limit=100], and every request it
    issues is a page request [collections/<id>/items?limit=100&offset=<o>]. *)
Theorem list_items_all_ignores_limit (server : request -> response)
    (H : list (string * string)) (fuel : nat) (c : string) (limit offset : Z) :
  list_items server H fuel c limit offset true =
  list_items server H fuel c 100 offset true /\
  Forall (fun r => exists o : Z, req_url r =
            WEBFLOW_URL ++ "/" ++ "collections/" ++ c ++
            "/items?limit=100&offset=" ++ Z_to_dec o)
    (fst (list_items server H fuel c limit offset true [])).
Proof.
  split; [reflexivity|].
  apply list_items_all_preserves; [|constructor].
  intros o. apply webflow_request_preserves. exists o. reflexivity.
Qed.

(** ** Single-request operations *)

Lemma query_string_app (a b : string) :
  query_string (a ++ b) =
  match query_string a with Some s => Some (s ++ b) | None => query_string b end.
Proof.
  induction a as [|ch a IH]; simpl; [reflexivity|].
  destruct (Ascii.eqb ch "?"); [reflexivity | exact IH].
Qed.

(** The request issued by [_webflow_request], and what it returns. *)
Lemma webflow_request_run server H method path j tr :
  _webflow_request server H method path j tr =
  let r := mk_request method (WEBFLOW_URL ++ "/" ++ path) H j in
  (List.app tr [r],
   match content (server r) with
   | None => Err JSONDecodeError
   | Some body =>
       if (400 <=? status_code (server r)) && (status_code (server r) <? 600)
       then Err (HTTPError (server r)) else Ok body
   end).
Proof.
  unfold _webflow_request, bind, send. simpl.
  destruct (content _) as [body|]; [destruct (_ && _)|]; reflexivity.
Qed.

(** Every method other than [list_items(all=True)] is one call of
    [_webflow_request]. *)
Definition single_call (c : call) : bool :=
  match c with
  | ListItems _ _ _ true => false
  | _ => true
  end.

Lemma run_call_single server H fuel c :
  single_call c = true ->
  exists method path j, run_call server H fuel c = _webflow_request server H method path j.
Proof.
  destruct c as [| | | | | | |cid l o [|]| | | | | | | | |]; intros Hs;
    try discriminate; do 3 eexists; reflexivity.
Qed.

(** The "fields" wrapper and the query string of the item writes. *)
Definition item_write_ok (P : json) (live : bool) (tr : list request) : Prop :=
  exists r, tr = [r] /\ req_json r = Some (JObj [("fields", P)]) /\
            query_string (req_url r) = if live then Some "live=true" else None.

(** C4: for every payload [P], [create_item], [update_item] and
    [patch_item] issue one request whose body is [{"fields": P}] and whose
    query string is [live=true] when [live] is true and absent otherwise
    (for identifiers without a [?] in them). *)
Theorem item_writes_body_and_live (server : request -> response)
    (H : list (string * string)) (collection_id item_id : string) (P : json)
    (live : bool)
    (Hc : query_string collection_id = None) (Hi : query_string item_id = None) :
  item_write_ok P live (fst (create_item server H collection_id P live [])) /\
  item_write_ok P live (fst (update_item server H collection_id item_id P live [])) /\
  item_write_ok P live (fst (patch_item server H collection_id item_id P live [])).
Proof.
  unfold create_item, update_item, patch_item.
  rewrite !webflow_request_run. simpl fst.
  repeat split; (eexists; split; [reflexivity|]); split; try reflexivity;
    simpl req_url; simpl;
    rewrite query_string_app, Hc; simpl;
    try (rewrite query_string_app, Hi; simpl);
    destruct live; reflexivity.
Qed.

Lemma item_writes_body_and_live_witness :
  query_string "c0" = None /\ query_string "i0" = None /\
  item_write_ok (JObj [("name", JStr "x")]) true
    (fst (create_item server250 [] "c0" (JObj [("name", JStr "x")]) true [])) /\
  item_write_ok (JObj [("name", JStr "x")]) true
    (fst (update_item server250 [] "c0" "i0" (JObj [("name", JStr "x")]) true [])) /\
  item_write_ok (JObj [("name", JStr "x")]) true
    (fst (patch_item server250 [] "c0" "i0" (JObj [("name", JStr "x")]) true [])).
Proof.
  split; [reflexivity|]. split; [reflexivity|].
  apply (item_writes_body_and_live server250 [] "c0" "i0"); reflexivity.
Defined.

(** C7: with [all=False], [list_items] issues a single GET to
    [collections/<id>/items] whose query string is exactly
    [limit=<limit>&offset=<offset>], and returns what [_webflow_request]
    returns for it: the parsed upstream body, unmodified, on a 2xx status. *)
Theorem list_items_page_request (server : request -> response)
    (H : list (string * string)) (fuel : nat) (c : string) (limit offset : Z)
    (Hc : query_string c = None) :
  exists r,
    list_items server H fuel c limit offset false [] =
    ([r], snd (_webflow_request server H "GET"
                 ("collections/" ++ c ++ "/items?limit=" ++ Z_to_dec limit
                    ++ "&offset=" ++ Z_to_dec offset) None [])) /\
    req_method r = "GET" /\ req_json r = None /\ req_headers r = H /\
    req_url r = WEBFLOW_URL ++ "/collections/" ++ c ++ "/items?limit="
                  ++ Z_to_dec limit ++ "&offset=" ++ Z_to_dec offset /\
    query_string (req_url r) =
      Some ("limit=" ++ Z_to_dec limit ++ "&offset=" ++ Z_to_dec offset) /\
    (forall body, content (server r) = Some body ->
       200 <= status_code (server r) < 300 ->
       snd (list_items server H fuel c limit offset false []) = Ok body).
Proof.
  eexists. unfold list_items, list_items_page.
  rewrite webflow_request_run. cbv zeta.
  split; [reflexivity|].
  do 4 (split; [reflexivity|]).
  split.
  - simpl. rewrite query_string_app, Hc. reflexivity.
  - intros body Hb Hs. rewrite Hb. cbn [snd].
    replace ((400 <=? _) && (_ <? 600)) with false; [reflexivity|].
    symmetry. apply andb_false_intro1. apply Z.leb_gt. lia.
Qed.

Lemma list_items_page_request_witness :
  query_string "col" = None /\
  exists r,
    list_items server250 [] 0 "col" 100 0 false [] =
    ([r], snd (_webflow_request server250 [] "GET"
                 ("collections/" ++ "col" ++ "/items?limit=" ++ Z_to_dec 100
                    ++ "&offset=" ++ Z_to_dec 0) None [])) /\
    req_method r = "GET" /\ req_json r = None /\ req_headers r = [] /\
    req_url r = WEBFLOW_URL ++ "/collections/" ++ "col" ++ "/items?limit="
                  ++ Z_to_dec 100 ++ "&offset=" ++ Z_to_dec 0 /\
    query_string (req_url r) =
      Some ("limit=" ++ Z_to_dec 100 ++ "&offset=" ++ Z_to_dec 0) /\
    (forall body, content (server250 r) = Some body ->
       200 <= status_code (server250 r) < 300 ->
       snd (list_items server250 [] 0 "col" 100 0 false []) = Ok body).
Proof.
  split; [reflexivity|].
  apply (list_items_page_request server250 [] 0 "col" 100 0). reflexivity.
Defined.

(** C8: [publish_site] issues one POST to [sites/<site_id>/publish] whose
    body is exactly [{"domains": domain_names}]. *)
Theorem publish_site_request (server : request -> response)
    (H : list (string * string)) (site_id : string) (domain_names : json) :
  fst (publish_site server H site_id domain_names []) =
  [mk_request "POST" (WEBFLOW_URL ++ "/sites/" ++ site_id ++ "/publish") H
     (Some (JObj [("domains", domain_names)]))].
Proof.
  unfold publish_site. rewrite webflow_request_run. reflexivity.
Qed.

Example publish_site_two_domains :
  fst (publish_site server250 [] "s1" (JArr [JStr "a.com"; JStr "b.com"]) []) =
  [mk_request "POST" "https://api.webflow.com/sites/s1/publish" []
     (Some (JObj [("domains", JArr [JStr "a.com"; JStr "b.com"])]))].
Proof. reflexivity. Qed.

(** ** Status codes and non-JSON bodies *)

Definition json_server (status : Z) (body : json) (r : request) : response :=
  mk_response status (Some body).

Definition html_server (status : Z) (r : request) : response :=
  mk_response status None.

Lemma single_call_run server H fuel c :
  single_call c = true ->
  exists r, fst (run_call server H fuel c []) = [r] /\
    snd (run_call server H fuel c []) =
    match content (server r) with
    | None => Err JSONDecodeError
    | Some body =>
        if (400 <=? status_code (server r)) && (status_code (server r) <? 600)
        then Err (HTTPError (server r)) else Ok body
    end.
Proof.
  intros Hs. destruct (run_call_single server H fuel c Hs) as (m & p & j & E).
  rewrite E, webflow_request_run. eexists. split; reflexivity.
Qed.

(** C5 (as amended): for every method but [list_items(all=True)], when the
    body of the response is valid JSON, a status in [400, 600) raises an
    [HTTPError] carrying the response (its status code and body), and any
    other status, 2xx in particular, returns the parsed body. *)
Theorem json_response_outcome (server : request -> response)
    (H : list (string * string)) (fuel : nat) (c : call) (body : json)
    (Hs : single_call c = true) :
  exists r, fst (run_call server H fuel c []) = [r] /\
    (content (server r) = Some body ->
     snd (run_call server H fuel c []) =
     if (400 <=? status_code (server r)) && (status_code (server r) <? 600)
     then Err (HTTPError (server r)) else Ok body).
Proof.
  destruct (single_call_run server H fuel c Hs) as (r & Htr & Hout).
  exists r. split; [exact Htr|]. intros Hb. rewrite Hout, Hb. reflexivity.
Qed.

Lemma json_response_outcome_witness :
  single_call (GetItem "col" "unknown") = true /\
  exists r, fst (run_call (json_server 404 (JObj [("msg", JStr "not found")]))
                          [] 0 (GetItem "col" "unknown") []) = [r] /\
    (content (json_server 404 (JObj [("msg", JStr "not found")]) r) =
       Some (JObj [("msg", JStr "not found")]) ->
     snd (run_call (json_server 404 (JObj [("msg", JStr "not found")]))
                   [] 0 (GetItem "col" "unknown") []) =
     if (400 <=? status_code (json_server 404 (JObj [("msg", JStr "not found")]) r))
        && (status_code (json_server 404 (JObj [("msg", JStr "not found")]) r) <? 600)
     then Err (HTTPError (json_server 404 (JObj [("msg", JStr "not found")]) r))
     else Ok (JObj [("msg", JStr "not found")])).
Proof.
  split; [reflexivity|].
  apply (json_response_outcome (json_server 404 (JObj [("msg", JStr "not found")]))
           [] 0 (GetItem "col" "unknown")).
  reflexivity.
Defined.

(** C5 fails as stated: [raise_for_status] only raises for 4xx and 5xx, so
    a 300 response with a JSON body is returned as a success. *)
Lemma non_2xx_not_raised :
  snd (run_call (json_server 300 (JObj [("choices", JArr [])])) []
                0 (GetItem "col" "i1") []) =
  Ok (JObj [("choices", JArr [])]).
Proof. reflexivity. Qed.

Example get_item_404 :
  snd (run_call (json_server 404 (JObj [("msg", JStr "not found")])) []
                0 (GetItem "col" "unknown") []) =
  Err (HTTPError (mk_response 404 (Some (JObj [("msg", JStr "not found")])))).
Proof. reflexivity. Qed.

(** C10: [_webflow_request] parses the body ([print(res.json())]) before
    [raise_for_status]: for every method but [list_items(all=True)], a
    response whose body is not JSON raises [JSONDecodeError], whatever its
    status, 2xx as well as 4xx/5xx. *)
Theorem non_json_body_decode_error (server : request -> response)
    (H : list (string * string)) (fuel : nat) (c : call)
    (Hs : single_call c = true) :
  exists r, fst (run_call server H fuel c []) = [r] /\
    (content (server r) = None ->
     snd (run_call server H fuel c []) = Err JSONDecodeError).
Proof.
  destruct (single_call_run server H fuel c Hs) as (r & Htr & Hout).
  exists r. split; [exact Htr|]. intros Hb. rewrite Hout, Hb. reflexivity.
Qed.

Lemma non_json_body_decode_error_witness :
  single_call (GetItem "col" "unknown") = true /\
  exists r, fst (run_call (html_server 404) [] 0 (GetItem "col" "unknown") []) = [r] /\
    (content (html_server 404 r) = None ->
     snd (run_call (html_server 404) [] 0 (GetItem "col" "unknown") []) =
     Err JSONDecodeError).
Proof.
  split; [reflexivity|].
  apply (non_json_body_decode_error (html_server 404) [] 0 (GetItem "col" "unknown")).
  reflexivity.
Defined.

Example non_json_200 :
  snd (run_call (html_server 200) [] 0 Info []) = Err JSONDecodeError.
Proof. reflexivity. Qed.

(** ** The [all=True] loop on empty pages *)

(** A page with no items that reports [total] items. *)
Definition empty_page (total : Z) : json :=
  JObj [("items", JArr []); ("total", JNum total)].

Ltac step_pure :=
  cbn [list_items_loop bind getitem empty_page dict_get as_int py_iter
       String.eqb Ascii.eqb Bool.eqb andb ret raise content status_code].

Lemma list_items_loop_empty_step server H c t fuel o items tr :
  (forall r, server r = mk_response 200 (Some (empty_page t))) ->
  Z.of_nat (List.length items) < t ->
  list_items_loop server H (S fuel) c o items (empty_page t) tr =
  list_items_loop server H fuel c (o + 100) items (empty_page t)
    (List.app tr [mk_request "GET" (WEBFLOW_URL ++ "/" ++ ("collections/" ++ c ++
       "/items?limit=" ++ Z_to_dec 100 ++ "&offset=" ++ Z_to_dec (o + 100))) H None]).
Proof.
  intros Hsrv Hlt. apply Z.ltb_lt in Hlt. step_pure. rewrite Hlt.
  unfold list_items_page, bind at 1. rewrite webflow_request_run. cbv zeta.
  rewrite Hsrv. step_pure.
  replace ((400 <=? 200) && (200 <? 600)) with false by reflexivity.
  step_pure. rewrite app_nil_r. reflexivity.
Qed.

Lemma list_items_loop_empty_pages server H c t :
  (forall r, server r = mk_response 200 (Some (empty_page t))) ->
  forall fuel o items tr, Z.of_nat (List.length items) < t ->
    snd (list_items_loop server H fuel c o items (empty_page t) tr) = NoFuel /\
    List.length (fst (list_items_loop server H fuel c o items (empty_page t) tr)) =
    (List.length tr + fuel)%nat.
Proof.
  intros Hsrv fuel. induction fuel as [|fuel IH]; intros o items tr Hlt.
  - apply Z.ltb_lt in Hlt. step_pure. rewrite Hlt. cbn. split; [reflexivity|lia].
  - rewrite (list_items_loop_empty_step server H c t fuel o items tr Hsrv Hlt).
    split; [apply IH; exact Hlt|].
    rewrite (proj2 (IH _ _ _ Hlt)), length_app. simpl. lia.
Qed.

Lemma list_items_all_empty_pages server H fuel c limit offset t :
  (forall r, server r = mk_response 200 (Some (empty_page t))) -> 0 < t ->
  snd (list_items server H fuel c limit offset true []) = NoFuel /\
  List.length (fst (list_items server H fuel c limit offset true [])) = S fuel.
Proof.
  intros Hsrv Ht.
  set (r0 := mk_request "GET" (WEBFLOW_URL ++ "/" ++ ("collections/" ++ c ++
               "/items?limit=" ++ Z_to_dec 100 ++ "&offset=" ++ Z_to_dec offset))
               H None).
  destruct (list_items_loop_empty_pages server H c t Hsrv fuel offset [] [r0])
    as [H1 H2]; [simpl; lia|].
  assert (E : list_items server H fuel c limit offset true [] =
              (fst (list_items_loop server H fuel c offset [] (empty_page t) [r0]),
               NoFuel)).
  { unfold list_items, list_items_page.
    unfold bind at 1. rewrite webflow_request_run. cbv zeta. rewrite Hsrv.
    step_pure. replace ((400 <=? 200) && (200 <? 600)) with false by reflexivity.
    step_pure. rewrite app_nil_l. fold r0. unfold bind at 1.
    destruct (list_items_loop server H fuel c offset [] (empty_page t) [r0])
      as [tr' o'].
    simpl in H1. subst o'. reflexivity. }
  rewrite E. split; [reflexivity|]. simpl fst. rewrite H2. reflexivity.
Qed.


(** C2 fails as stated: against a server whose pages are all empty while
    reporting [total = 1], [list_items(all=True)] does not finish within
    any number of loop iterations. *)
Lemma empty_page_loop_does_not_terminate :
  ~ exists fuel,
    snd (list_items (fun _ => mk_response 200 (Some (empty_page 1))) []
                    fuel "col" 100 0 true []) <> NoFuel.
Proof.
  intros [fuel Hfin]. apply Hfin.
  apply (list_items_all_empty_pages
           (fun _ => mk_response 200 (Some (empty_page 1))) [] fuel "col" 100 0 1);
    [intros r; reflexivity | lia].
Qed.

(** ** The configured token *)


(** C3 fails as stated: an empty token raises no configuration error, and
    [info()] sends a request whose [Authorization] header is [Bearer ]. *)
Lemma empty_token_request_sent :
  client (Some "") (json_server 401 (JObj [("msg", JStr "unauthorized")])) 0 Info =
  ([mk_request "GET" "https://api.webflow.com/info"
      [("Accept-Version", "1.0.0"); ("Authorization", "Bearer ");
       ("content-type", "application/json")] None],
   Err (HTTPError (mk_response 401 (Some (JObj [("msg", JStr "unauthorized")]))))).
Proof. reflexivity. Qed.

(** ** Further properties of the client *)

(** *** Dict lookups after assignments *)

Lemma dict_get_set_same k v kvs : dict_get k (dict_set k v kvs) = Some v.
Proof.
  induction kvs as [|[k' v'] rest IH]; simpl.
  - rewrite String.eqb_refl. reflexivity.
  - destruct (String.eqb k k') eqn:E; simpl.
    + rewrite E. reflexivity.
    + rewrite E. exact IH.
Qed.

Lemma dict_get_set_other k k2 v kvs :
  k2 <> k -> dict_get k2 (dict_set k v kvs) = dict_get k2 kvs.
Proof.
  intros Hne. induction kvs as [|[k' v'] rest IH]; simpl.
  - apply String.eqb_neq in Hne. rewrite Hne. reflexivity.
  - destruct (String.eqb k k') eqn:E; simpl.
    + apply String.eqb_eq in E. subst k'.
      apply String.eqb_neq in Hne. rewrite Hne. reflexivity.
    + destruct (String.eqb k2 k'); [reflexivity | exact IH].
Qed.

(** *** Pure readings of the monadic helpers *)

(** The integer [as_int] reads, if any. *)
Definition py_int (v : json) : option Z :=
  match v with
  | JNum z => Some z
  | JBool b => Some (if b then 1 else 0)
  | _ => None
  end.

(** The items [list.extend] takes from a value, if it is iterable. *)
Definition py_iter_list (v : json) : option (list json) :=
  match v with
  | JArr l => Some l
  | JStr s => Some (map (fun c => JStr (String c EmptyString)) (list_ascii_of_string s))
  | JObj kvs => Some (map (fun kv => JStr (fst kv)) kvs)
  | _ => None
  end.

(** The items of a page response ([resp['items']] iterated); [] when the
    response has none. *)
Definition page_items (res : response) : list json :=
  match content res with
  | Some (JObj kvs) =>
      match dict_get "items" kvs with
      | Some v => match py_iter_list v with Some l => l | None => [] end
      | None => []
      end
  | _ => []
  end.

(** The page request [list_items(all=True)] issues at [offset]. *)
Definition page_req (H : list (string * string)) (c : string) (offset : Z) : request :=
  mk_request "GET" (WEBFLOW_URL ++ "/" ++ ("collections/" ++ c ++ "/items?limit="
                      ++ Z_to_dec 100 ++ "&offset=" ++ Z_to_dec offset)) H None.

Lemma bind_ok_inv {A B} (m : M A) (f : A -> M B) tr tr' b :
  bind m f tr = (tr', Ok b) ->
  exists tr1 a, m tr = (tr1, Ok a) /\ f a tr1 = (tr', Ok b).
Proof.
  unfold bind. destruct (m tr) as [tr1 [a|e|]]; intros E; try discriminate.
  eauto.
Qed.

Lemma getitem_ok v k tr tr' x :
  getitem v k tr = (tr', Ok x) ->
  tr' = tr /\ exists kvs, v = JObj kvs /\ dict_get k kvs = Some x.
Proof.
  destruct v; simpl; intros E; try discriminate.
  destruct (dict_get k kvs) eqn:D; inversion E; subst; eauto.
Qed.

Lemma as_int_ok v tr tr' z :
  as_int v tr = (tr', Ok z) -> tr' = tr /\ py_int v = Some z.
Proof. destruct v; simpl; intros E; inversion E; subst; auto. Qed.

Lemma py_iter_ok v tr tr' l :
  py_iter v tr = (tr', Ok l) -> tr' = tr /\ py_iter_list v = Some l.
Proof. destruct v; simpl; intros E; inversion E; subst; auto. Qed.

Lemma setitem_ok v k x tr tr' w :
  setitem v k x tr = (tr', Ok w) ->
  tr' = tr /\ exists kvs, v = JObj kvs /\ w = JObj (dict_set k x kvs).
Proof. destruct v; simpl; intros E; inversion E; subst; eauto. Qed.

Lemma page_ok server H c o tr tr' resp :
  list_items_page server H c 100 o tr = (tr', Ok resp) ->
  tr' = List.app tr [page_req H c o] /\ content (server (page_req H c o)) = Some resp.
Proof.
  unfold list_items_page. rewrite webflow_request_run. cbv zeta.
  destruct (content _) as [j|] eqn:C; [|intros E; discriminate].
  destruct (_ && _); intros E; inversion E; subst; auto.
Qed.

Lemma map_offsets_shift {A} (g : Z -> A) (o : Z) (s k : nat) :
  map (fun i => g (o + 100 * Z.of_nat i)) (seq (S s) k) =
  map (fun i => g (o + 100 + 100 * Z.of_nat i)) (seq s k).
Proof.
  rewrite <- seq_shift, map_map. apply map_ext. intros i. f_equal. lia.
Qed.

(** What a finished run of the [while] loop of [list_items(all=True)] did:
    [k] more page requests at offsets [o+100], ..., [o+100k], their items
    appended in order, and the last page seen has a [total] the
    accumulated count reaches. *)
Lemma list_items_loop_ok server H fuel c :
  forall o items resp tr tr' all resp',
  list_items_loop server H fuel c o items resp tr = (tr', Ok (all, resp')) ->
  exists k, (k <= fuel)%nat /\
    tr' = List.app tr (map (fun i => page_req H c (o + 100 * Z.of_nat i)) (seq 1 k)) /\
    all = List.app items (List.concat (map (fun i =>
             page_items (server (page_req H c (o + 100 * Z.of_nat i)))) (seq 1 k))) /\
    ((k = 0%nat /\ resp' = resp) \/
     (k <> 0%nat /\ content (server (page_req H c (o + 100 * Z.of_nat k))) = Some resp')) /\
    exists kvs t tot, resp' = JObj kvs /\ dict_get "total" kvs = Some t /\
      py_int t = Some tot /\ tot <= Z.of_nat (List.length all).
Proof.
  induction fuel as [|fuel IH]; intros o items resp tr tr' all resp' Hrun;
    cbn [list_items_loop] in Hrun;
    apply bind_ok_inv in Hrun as (tr1 & t & Ht & Hrun);
    apply getitem_ok in Ht as (-> & kvs & -> & Hkt);
    apply bind_ok_inv in Hrun as (tr2 & tot & Htot & Hrun);
    apply as_int_ok in Htot as (-> & Htot);
    destruct (Z.of_nat (List.length items) <? tot) eqn:L;
    try (inversion Hrun; subst; exists 0%nat; simpl; rewrite !app_nil_r;
         split; [lia|]; split; [reflexivity|]; split; [reflexivity|];
         split; [left; auto|];
         exists kvs, t, tot; repeat split; auto; apply Z.ltb_ge; exact L).
  - discriminate.
  - apply bind_ok_inv in Hrun as (tr3 & resp1 & Hp & Hrun).
    apply page_ok in Hp as [-> Hc].
    apply bind_ok_inv in Hrun as (tr4 & it & Hit & Hrun).
    apply getitem_ok in Hit as (-> & kvs1 & -> & Hitems).
    apply bind_ok_inv in Hrun as (tr5 & l & Hl & Hrun).
    apply py_iter_ok in Hl as [-> Hl].
    apply IH in Hrun as (k & Hk & Htr & Hall & Hlast & Htotal).
    exists (S k). split; [lia|].
    assert (Hpage : page_items (server (page_req H c (o + 100))) = l).
    { unfold page_items. rewrite Hc, Hitems, Hl. reflexivity. }
    split; [|split; [|split]].
    + rewrite Htr, <- app_assoc. f_equal. cbn [seq map List.app].
      rewrite (map_offsets_shift (page_req H c) o 1 k).
      replace (o + 100 * Z.of_nat 1) with (o + 100) by lia. reflexivity.
    + rewrite Hall, <- app_assoc. f_equal. cbn [seq map List.concat].
      rewrite (map_offsets_shift (fun o' => page_items (server (page_req H c o'))) o 1 k).
      replace (o + 100 * Z.of_nat 1) with (o + 100) by lia. rewrite Hpage. reflexivity.
    + right. split; [lia|].
      destruct Hlast as [[-> ->] | [_ Hlast]].
      * replace (o + 100 * Z.of_nat 1) with (o + 100) by lia. exact Hc.
      * rewrite <- Hlast. do 3 f_equal. lia.
    + exact Htotal.
Qed.

(** The items [list_items(all=True)] gathers from the pages of a trace. *)
Definition gathered (server : request -> response) (tr : list request) : list json :=
  List.concat (map (fun r => page_items (server r)) tr).

Lemma list_items_all_ok server H fuel c limit offset tr v :
  list_items server H fuel c limit offset true [] = (tr, Ok v) ->
  exists k kvs_last t tot,
    (k <= fuel)%nat /\
    tr = map (fun i => page_req H c (offset + 100 * Z.of_nat i)) (seq 0 (S k)) /\
    content (server (page_req H c (offset + 100 * Z.of_nat k))) = Some (JObj kvs_last) /\
    v = JObj (dict_set "count" (JNum (Z.of_nat (List.length (gathered server tr))))
               (dict_set "items" (JArr (gathered server tr)) kvs_last)) /\
    dict_get "total" kvs_last = Some t /\ py_int t = Some tot /\
    tot <= Z.of_nat (List.length (gathered server tr)).
Proof.
  intros Hrun. unfold list_items in Hrun.
  apply bind_ok_inv in Hrun as (tr1 & resp & Hp & Hrun).
  apply page_ok in Hp as [-> Hc].
  apply bind_ok_inv in Hrun as (tr2 & it & Hit & Hrun).
  apply getitem_ok in Hit as (-> & kvs0 & -> & Hitems).
  apply bind_ok_inv in Hrun as (tr3 & l & Hl & Hrun).
  apply py_iter_ok in Hl as [-> Hl].
  apply bind_ok_inv in Hrun as (tr4 & [all resp'] & Hloop & Hrun).
  apply list_items_loop_ok in Hloop as (k & Hk & Htr & Hall & Hlast & kvs & t & tot &
                                       -> & Ht & Htot & Hle).
  apply bind_ok_inv in Hrun as (tr5 & r1 & Hs1 & Hrun).
  apply setitem_ok in Hs1 as (-> & kvs' & Ekvs & ->). inversion Ekvs; subst kvs'.
  apply bind_ok_inv in Hrun as (tr6 & r2 & Hs2 & Hrun).
  apply setitem_ok in Hs2 as (-> & kvs'' & Ekvs' & ->). inversion Ekvs'; subst kvs''.
  cbv [ret] in Hrun. injection Hrun as <- <-.
  assert (Etr : tr4 = map (fun i => page_req H c (offset + 100 * Z.of_nat i)) (seq 0 (S k))).
  { rewrite Htr. cbn [seq map List.app].
    replace (offset + 100 * Z.of_nat 0) with offset by lia. reflexivity. }
  assert (Eall : all = gathered server tr4).
  { rewrite Hall, Etr. unfold gathered. rewrite map_map. cbn [seq map List.concat].
    replace (offset + 100 * Z.of_nat 0) with offset by lia.
    f_equal. unfold page_items. rewrite Hc, Hitems, Hl. reflexivity. }
  exists k, kvs, t, tot. rewrite <- Eall.
  split; [exact Hk|]. split; [exact Etr|]. split.
  - destruct Hlast as [[-> Eresp] | [_ Hlast]].
    + simpl. replace (offset + 0) with offset by lia. rewrite Hc, Eresp. reflexivity.
    + exact Hlast.
  - split; [reflexivity|]. auto.
Qed.

(** A finished [list_items(all=True)] issued its page requests in order
    at offsets [offset], [offset+100], [offset+200], ... (each a GET with
    [limit=100]), at most one more than the number of loop iterations. *)
Theorem list_items_all_page_offsets (server : request -> response)
    (H : list (string * string)) (fuel : nat) (c : string) (limit offset : Z)
    (tr : list request) (v : json)
    (Hrun : list_items server H fuel c limit offset true [] = (tr, Ok v)) :
  exists k, (k <= fuel)%nat /\
    tr = map (fun i => page_req H c (offset + 100 * Z.of_nat i)) (seq 0 (S k)).
Proof.
  destruct (list_items_all_ok _ _ _ _ _ _ _ _ Hrun)
    as (k & kvs_last & t & tot & Hk & Htr & _). eauto.
Qed.

Lemma list_items_all_page_offsets_witness :
  exists tr v, list_items server250 [] 2 "col" 7 0 true [] = (tr, Ok v) /\
  exists k, (k <= 2)%nat /\
    tr = map (fun i => page_req [] "col" (0 + 100 * Z.of_nat i)) (seq 0 (S k)).
Proof.
  do 2 eexists. split; [vm_compute; reflexivity|].
  eapply (list_items_all_page_offsets server250 [] 2 "col" 7 0).
  vm_compute. reflexivity.
Defined.

(** A finished [list_items(all=True)] returns a dict whose [items] are
    the items of all the pages fetched, concatenated in request order, and
    whose [count] is their number. *)
Theorem list_items_all_items_gathered (server : request -> response)
    (H : list (string * string)) (fuel : nat) (c : string) (limit offset : Z)
    (tr : list request) (v : json)
    (Hrun : list_items server H fuel c limit offset true [] = (tr, Ok v)) :
  exists kvs, v = JObj kvs /\
    dict_get "items" kvs = Some (JArr (gathered server tr)) /\
    dict_get "count" kvs = Some (JNum (Z.of_nat (List.length (gathered server tr)))).
Proof.
  destruct (list_items_all_ok _ _ _ _ _ _ _ _ Hrun)
    as (k & kvs_last & t & tot & _ & _ & _ & -> & _).
  eexists. split; [reflexivity|]. split.
  - rewrite dict_get_set_other by discriminate. apply dict_get_set_same.
  - apply dict_get_set_same.
Qed.

Lemma list_items_all_items_gathered_witness :
  exists tr v, list_items server250 [] 2 "col" 100 0 true [] = (tr, Ok v) /\
  exists kvs, v = JObj kvs /\
    dict_get "items" kvs = Some (JArr (gathered server250 tr)) /\
    dict_get "count" kvs = Some (JNum (Z.of_nat (List.length (gathered server250 tr)))).
Proof.
  do 2 eexists. split; [vm_compute; reflexivity|].
  eapply (list_items_all_items_gathered server250 [] 2 "col" 100 0).
  vm_compute. reflexivity.
Defined.

(** The dict a finished [list_items(all=True)] returns is the last page
    fetched, with only [items] and [count] changed; that page's [total] is
    at most the [count] returned. *)
Theorem list_items_all_last_envelope (server : request -> response)
    (H : list (string * string)) (fuel : nat) (c : string) (limit offset : Z)
    (tr : list request) (v : json)
    (Hrun : list_items server H fuel c limit offset true [] = (tr, Ok v)) :
  exists tr0 r_last kvs_last kvs,
    tr = List.app tr0 [r_last] /\ content (server r_last) = Some (JObj kvs_last) /\
    v = JObj kvs /\
    (forall key, key <> "items" -> key <> "count" ->
       dict_get key kvs = dict_get key kvs_last) /\
    exists t tot, dict_get "total" kvs = Some t /\ py_int t = Some tot /\
      tot <= Z.of_nat (List.length (gathered server tr)).
Proof.
  destruct (list_items_all_ok _ _ _ _ _ _ _ _ Hrun)
    as (k & kvs_last & t & tot & _ & Htr & Hc & -> & Ht & Htot & Hle).
  exists (map (fun i => page_req H c (offset + 100 * Z.of_nat i)) (seq 0 k)),
         (page_req H c (offset + 100 * Z.of_nat k)), kvs_last.
  eexists. split; [|split; [exact Hc|split; [reflexivity|split]]].
  - rewrite Htr, seq_S, map_app. reflexivity.
  - intros key H1 H2. rewrite !dict_get_set_other by assumption. reflexivity.
  - exists t, tot. split; [|auto].
    rewrite !dict_get_set_other by discriminate. exact Ht.
Qed.

Lemma list_items_all_last_envelope_witness :
  exists tr v, list_items server250 [] 2 "col" 100 0 true [] = (tr, Ok v) /\
  exists tr0 r_last kvs_last kvs,
    tr = List.app tr0 [r_last] /\ content (server250 r_last) = Some (JObj kvs_last) /\
    v = JObj kvs /\
    (forall key, key <> "items" -> key <> "count" ->
       dict_get key kvs = dict_get key kvs_last) /\
    exists t tot, dict_get "total" kvs = Some t /\ py_int t = Some tot /\
      tot <= Z.of_nat (List.length (gathered server250 tr)).
Proof.
  do 2 eexists. split; [vm_compute; reflexivity|].
  eapply (list_items_all_last_envelope server250 [] 2 "col" 100 0).
  vm_compute. reflexivity.
Defined.

(** *** How many requests a call issues *)

Definition adds_at_most {A} (n : nat) (m : M A) : Prop :=
  forall tr, exists ex, fst (m tr) = List.app tr ex /\ (List.length ex <= n)%nat.

Lemma ret_adds {A} (a : A) : adds_at_most 0 (ret a).
Proof. intros tr. exists []. rewrite app_nil_r. auto. Qed.

Lemma raise_adds {A} (e : error) : adds_at_most (A:=A) 0 (raise e).
Proof. intros tr. exists []. rewrite app_nil_r. auto. Qed.

Lemma adds_weaken {A} (m : M A) n n' :
  (n <= n')%nat -> adds_at_most n m -> adds_at_most n' m.
Proof.
  intros Hle Hm tr. destruct (Hm tr) as (ex & E & L).
  exists ex. split; [exact E | lia].
Qed.

Lemma bind_adds {A B} (m : M A) (f : A -> M B) a b :
  adds_at_most a m -> (forall x, adds_at_most b (f x)) -> adds_at_most (a + b) (bind m f).
Proof.
  intros Hm Hf tr. unfold bind. destruct (Hm tr) as (ex1 & E1 & L1).
  destruct (m tr) as [tr1 [x|e|]]; simpl in E1; subst tr1.
  - destruct (Hf x (List.app tr ex1)) as (ex2 & E2 & L2).
    exists (List.app ex1 ex2). rewrite E2, app_assoc, length_app.
    split; [reflexivity | lia].
  - exists ex1. simpl. split; [reflexivity | lia].
  - exists ex1. simpl. split; [reflexivity | lia].
Qed.

Lemma webflow_request_adds server H m p j :
  adds_at_most 1 (_webflow_request server H m p j).
Proof.
  intros tr. rewrite webflow_request_run. eexists. split; [reflexivity | simpl; lia].
Qed.

Lemma getitem_adds v k : adds_at_most 0 (getitem v k).
Proof.
  destruct v; try apply raise_adds. simpl.
  destruct (dict_get k kvs); [apply ret_adds | apply raise_adds].
Qed.

Lemma py_iter_adds v : adds_at_most 0 (py_iter v).
Proof. destruct v; first [apply ret_adds | apply raise_adds]. Qed.

Lemma as_int_adds v : adds_at_most 0 (as_int v).
Proof. destruct v; first [apply ret_adds | apply raise_adds]. Qed.

Lemma setitem_adds v k x : adds_at_most 0 (setitem v k x).
Proof. destruct v; first [apply ret_adds | apply raise_adds]. Qed.

Lemma list_items_loop_adds server H c fuel :
  forall o items resp, adds_at_most fuel (list_items_loop server H fuel c o items resp).
Proof.
  induction fuel as [|fuel IH]; intros o items resp; cbn [list_items_loop].
  - apply (bind_adds _ _ 0 0); [apply getitem_adds | intros t].
    apply (bind_adds _ _ 0 0); [apply as_int_adds | intros tot].
    destruct (_ <? _); [|apply ret_adds].
    intros tr. exists []. rewrite app_nil_r. auto.
  - apply (bind_adds _ _ 0 (S fuel)); [apply getitem_adds | intros t].
    apply (bind_adds _ _ 0 (S fuel)); [apply as_int_adds | intros tot].
    destruct (_ <? _); [|eapply adds_weaken; [|apply ret_adds]; lia].
    apply (bind_adds _ _ 1 fuel); [apply webflow_request_adds | intros resp'].
    apply (bind_adds _ _ 0 fuel); [apply getitem_adds | intros it].
    apply (bind_adds _ _ 0 fuel); [apply py_iter_adds | intros l].
    apply IH.
Qed.

(** Every method but [list_items(all=True)] issues exactly one request;
    [list_items(all=True)] always starts with the page at the given offset
    and issues at most one more request than the number of loop
    iterations, whatever the server answers (errors included). *)
Theorem requests_per_call (server : request -> response)
    (H : list (string * string)) (fuel : nat) (c : call) :
  (single_call c = true -> List.length (fst (run_call server H fuel c [])) = 1%nat) /\
  (forall cid limit offset, c = ListItems cid limit offset true ->
     exists ex, fst (run_call server H fuel c []) = page_req H cid offset :: ex /\
                (List.length ex <= fuel)%nat).
Proof.
  split.
  - intros Hs. destruct (single_call_run server H fuel c Hs) as (r & -> & _).
    reflexivity.
  - intros cid limit offset ->. cbn [run_call list_items].
    unfold bind at 1. unfold list_items_page at 1. rewrite webflow_request_run.
    cbv zeta. fold (page_req H cid offset).
    destruct (content (server (page_req H cid offset))) as [j|];
      [destruct (_ && _)|]; cbn [raise ret List.app fst];
      try (exists []; split; [reflexivity | simpl; lia]).
    assert (Hrest : adds_at_most (0 + (0 + (fuel + 0)))
      (it <- getitem j "items" ;; all_items <- py_iter it ;;
       r <- list_items_loop server H fuel cid offset all_items j ;;
       let '(all_items, resp) := r in
       resp <- setitem resp "items" (JArr all_items) ;;
       resp <- setitem resp "count" (JNum (Z.of_nat (List.length all_items))) ;;
       ret resp)).
    { apply bind_adds; [apply getitem_adds | intros it].
      apply bind_adds; [apply py_iter_adds | intros l].
      apply bind_adds; [apply list_items_loop_adds | intros [all resp]].
      apply (adds_weaken _ (0 + (0 + 0))); [lia|].
      apply bind_adds; [apply setitem_adds | intros r1].
      apply bind_adds; [apply setitem_adds | intros r2].
      apply ret_adds. }
    destruct (Hrest [page_req H cid offset]) as (ex & E & L).
    exists ex. split; [exact E | lia].
Qed.

Lemma requests_per_call_witness :
  List.length (fst (run_call server250 [] 0 Info [])) = 1%nat.
Proof. apply (proj1 (requests_per_call server250 [] 0 Info)). reflexivity. Defined.

(** *** Methods and bodies *)

(** The method is one of the five of [_webflow_request]'s signature, and a
    JSON body is sent exactly with POST, PUT and PATCH. *)
Definition method_body_ok (r : request) : Prop :=
  In (req_method r) ["GET"; "POST"; "PUT"; "PATCH"; "DELETE"] /\
  (req_json r = None <-> (req_method r = "GET" \/ req_method r = "DELETE")).

Ltac method_body_concrete :=
  split;
  [ simpl; repeat (first [left; reflexivity | right])
  | simpl; split;
    [ intros E; first [discriminate | left; reflexivity | right; reflexivity]
    | intros [E|E]; first [reflexivity | discriminate] ] ].

(** Every request any method issues uses one of GET, POST, PUT, PATCH
    and DELETE, and carries a JSON body exactly when it is a POST, PUT or
    PATCH: reads, deletions and all of [list_items] send no body. *)
Theorem methods_and_bodies (server : request -> response)
    (H : list (string * string)) (fuel : nat) (c : call) :
  Forall method_body_ok (fst (run_call server H fuel c [])).
Proof.
  destruct c as [| | | | | | |cid l o [|]| | | | | | | | |]; cbn [run_call];
    try (apply webflow_request_preserves; [method_body_concrete | constructor]).
  apply list_items_all_preserves; [|constructor].
  intros o'. apply webflow_request_preserves. method_body_concrete.
Qed.

(** String concatenation is associative. *)
Lemma str_app_assoc (a b d : string) : (a ++ b) ++ d = a ++ (b ++ d).
Proof. induction a as [|ch a IH]; simpl; [reflexivity | rewrite IH; reflexivity]. Qed.



(** *** [list_items(all=True)]: when the first page decides *)

Definition status_error (res : response) : bool :=
  (400 <=? status_code res) && (status_code res <? 600).

(** The rest of [list_items(all=True)] once the first page [resp] is in. *)
Lemma list_items_all_first_page server H fuel c limit offset :
  list_items server H fuel c limit offset true [] =
  match content (server (page_req H c offset)) with
  | None => ([page_req H c offset], Err JSONDecodeError)
  | Some resp =>
      if status_error (server (page_req H c offset))
      then ([page_req H c offset], Err (HTTPError (server (page_req H c offset))))
      else (it <- getitem resp "items" ;; all_items <- py_iter it ;;
            r <- list_items_loop server H fuel c offset all_items resp ;;
            let '(all_items, resp) := r in
            resp <- setitem resp "items" (JArr all_items) ;;
            resp <- setitem resp "count" (JNum (Z.of_nat (List.length all_items))) ;;
            ret resp) [page_req H c offset]
  end.
Proof.
  unfold list_items at 1. unfold bind at 1. unfold list_items_page at 1.
  rewrite webflow_request_run. cbv zeta. fold (page_req H c offset).
  unfold status_error.
  destruct (content _); [destruct (_ && _)|]; reflexivity.
Qed.

(** When the first page already holds at least [total] items (an empty
    collection with [total = 0] in particular), [list_items(all=True)]
    issues that one request, whatever the iteration budget, and returns the
    page with [items] set to its items and [count] to their number. *)
Theorem list_items_all_single_page (server : request -> response)
    (H : list (string * string)) (fuel : nat) (c : string) (limit offset : Z)
    (kvs : list (string * json)) (l : list json) (t : Z)
    (Hc : content (server (page_req H c offset)) = Some (JObj kvs))
    (Hs : status_error (server (page_req H c offset)) = false)
    (Hi : dict_get "items" kvs = Some (JArr l))
    (Ht : dict_get "total" kvs = Some (JNum t))
    (Hle : t <= Z.of_nat (List.length l)) :
  list_items server H fuel c limit offset true [] =
  ([page_req H c offset],
   Ok (JObj (dict_set "count" (JNum (Z.of_nat (List.length l)))
               (dict_set "items" (JArr l) kvs)))).
Proof.
  rewrite list_items_all_first_page, Hc, Hs.
  apply Z.ltb_ge in Hle.
  destruct fuel; cbn [list_items_loop];
    cbv [bind getitem py_iter ret setitem as_int out_of_fuel];
    rewrite Hi; cbv beta iota; rewrite Ht; cbv beta iota; rewrite Hle; reflexivity.
Qed.

Definition empty_collection_server (r : request) : response :=
  mk_response 200 (Some (JObj [("items", JArr []); ("count", JNum 0);
                               ("limit", JNum 100); ("offset", JNum 0);
                               ("total", JNum 0)])).

Lemma list_items_all_single_page_witness :
  content (empty_collection_server (page_req [] "col" 0)) =
    Some (JObj [("items", JArr []); ("count", JNum 0); ("limit", JNum 100);
                ("offset", JNum 0); ("total", JNum 0)]) /\
  status_error (empty_collection_server (page_req [] "col" 0)) = false /\
  list_items empty_collection_server [] 0 "col" 100 0 true [] =
  ([page_req [] "col" 0],
   Ok (JObj (dict_set "count" (JNum (Z.of_nat (List.length ([] : list json))))
               (dict_set "items" (JArr [])
                  [("items", JArr []); ("count", JNum 0); ("limit", JNum 100);
                   ("offset", JNum 0); ("total", JNum 0)])))).
Proof.
  split; [reflexivity|]. split; [reflexivity|].
  apply (list_items_all_single_page empty_collection_server [] 0 "col" 100 0
           [("items", JArr []); ("count", JNum 0); ("limit", JNum 100);
            ("offset", JNum 0); ("total", JNum 0)] [] 0);
    first [reflexivity | simpl; lia].
Defined.

Lemma py_iter_some v l tr : py_iter_list v = Some l -> py_iter v tr = (tr, Ok l).
Proof. destruct v; cbn; intros E; inversion E; reflexivity. Qed.

Lemma py_iter_none v tr : py_iter_list v = None -> py_iter v tr = (tr, Err TypeError).
Proof. destruct v; cbn; intros E; inversion E; reflexivity. Qed.

Lemma list_items_loop_no_total server H fuel c o items kvs tr :
  dict_get "total" kvs = None ->
  list_items_loop server H fuel c o items (JObj kvs) tr = (tr, Err (KeyError "total")).
Proof.
  intros Ht. destruct fuel; cbn [list_items_loop]; cbv [bind getitem];
    rewrite Ht; reflexivity.
Qed.

(** A first page that fails stops [list_items(all=True)] after that one
    request: a non-JSON body raises [JSONDecodeError]; a 4xx/5xx status
    raises [HTTPError]; a JSON body that is not a dict raises [TypeError];
    a dict without [items] raises [KeyError 'items']; a dict whose [items]
    is not iterable ([null], a number, a boolean) raises [TypeError]; and a
    dict with iterable [items] but no [total] raises [KeyError 'total']. *)
Theorem list_items_all_first_page_failure (server : request -> response)
    (H : list (string * string)) (fuel : nat) (c : string) (limit offset : Z) :
  let r0 := page_req H c offset in
  (content (server r0) = None ->
   list_items server H fuel c limit offset true [] = ([r0], Err JSONDecodeError)) /\
  (forall j, content (server r0) = Some j -> status_error (server r0) = true ->
   list_items server H fuel c limit offset true [] = ([r0], Err (HTTPError (server r0)))) /\
  (forall j, content (server r0) = Some j -> status_error (server r0) = false ->
   (forall kvs, j <> JObj kvs) ->
   list_items server H fuel c limit offset true [] = ([r0], Err TypeError)) /\
  (forall kvs, content (server r0) = Some (JObj kvs) -> status_error (server r0) = false ->
   dict_get "items" kvs = None ->
   list_items server H fuel c limit offset true [] = ([r0], Err (KeyError "items"))) /\
  (forall kvs it, content (server r0) = Some (JObj kvs) -> status_error (server r0) = false ->
   dict_get "items" kvs = Some it -> py_iter_list it = None ->
   list_items server H fuel c limit offset true [] = ([r0], Err TypeError)) /\
  (forall kvs it l, content (server r0) = Some (JObj kvs) -> status_error (server r0) = false ->
   dict_get "items" kvs = Some it -> py_iter_list it = Some l -> dict_get "total" kvs = None ->
   list_items server H fuel c limit offset true [] = ([r0], Err (KeyError "total"))).
Proof.
  intros r0. rewrite list_items_all_first_page. fold r0.
  split; [|split; [|split; [|split; [|split]]]].
  - intros Hc. rewrite Hc. reflexivity.
  - intros j Hc Hs. rewrite Hc, Hs. reflexivity.
  - intros j Hc Hs Hj. rewrite Hc, Hs.
    destruct j as [| | | | |kvs]; try reflexivity. exfalso. exact (Hj kvs eq_refl).
  - intros kvs Hc Hs Hi. rewrite Hc, Hs. cbv [bind getitem].
    rewrite Hi. reflexivity.
  - intros kvs it Hc Hs Hi Hit. rewrite Hc, Hs. cbv [bind getitem].
    rewrite Hi. cbv [ret]. cbv beta iota. rewrite (py_iter_none it [r0] Hit). reflexivity.
  - intros kvs it l Hc Hs Hi Hit Ht. rewrite Hc, Hs. cbv [bind getitem].
    rewrite Hi. cbv [ret]. cbv beta iota. rewrite (py_iter_some it l [r0] Hit).
    cbv beta iota. rewrite list_items_loop_no_total by exact Ht. reflexivity.
Qed.

Lemma list_items_all_first_page_failure_witness :
  list_items (json_server 200 (JObj [("items", JNull); ("total", JNum 3)])) [] 1 "col" 100 0
    true [] =
  ([page_req [] "col" 0], Err TypeError).
Proof.
  apply (list_items_all_first_page_failure
           (json_server 200 (JObj [("items", JNull); ("total", JNum 3)])) [] 1 "col" 100 0
           ) with (kvs := [("items", JNull); ("total", JNum 3)]) (it := JNull); reflexivity.
Defined.

(** *** The integers in the [list_items] query string *)

(** Reading a decimal digit. *)
Definition digit_val (ch : ascii) : option N :=
  let n := N_of_ascii ch in
  if (48 <=? n)%N && (n <=? 57)%N then Some (n - 48)%N else None.

(** Reading a string of decimal digits, after [acc]. *)
Fixpoint parse_digits (acc : N) (s : string) : option N :=
  match s with
  | EmptyString => Some acc
  | String ch s' =>
      match digit_val ch with
      | Some d => parse_digits (acc * 10 + d)%N s'
      | None => None
      end
  end.

(** Reading a query parameter as an integer: an optional [-] and at least
    one decimal digit. *)
Definition parse_int (s : string) : option Z :=
  match s with
  | EmptyString => None
  | String "-" EmptyString => None
  | String "-" s' => option_map (fun n => - Z.of_N n) (parse_digits 0 s')
  | _ => option_map Z.of_N (parse_digits 0 s)
  end.

Lemma parse_digits_app a s1 s2 :
  parse_digits a (s1 ++ s2) =
  match parse_digits a s1 with Some b => parse_digits b s2 | None => None end.
Proof.
  revert a. induction s1 as [|ch s1 IH]; intros a; simpl; [reflexivity|].
  destruct (digit_val ch); [apply IH | reflexivity].
Qed.

Lemma digits_acc f : forall n acc, digits f n acc = digits f n "" ++ acc.
Proof.
  induction f as [|f IH]; intros n acc; simpl; [reflexivity|].
  destruct (N.div n 10 =? 0)%N; [reflexivity|].
  rewrite IH, (IH _ (String _ "")), str_app_assoc. reflexivity.
Qed.

Lemma digit_val_lt10 (m : N) : (m < 10)%N -> digit_val (ascii_of_N (48 + m)) = Some m.
Proof.
  intros Hm. unfold digit_val. rewrite N_ascii_embedding by lia.
  replace ((48 <=? 48 + m)%N && (48 + m <=? 57)%N) with true.
  - cbv beta iota. f_equal. lia.
  - symmetry. apply andb_true_intro. split; apply N.leb_le; lia.
Qed.

Lemma digit_val_digit n : digit_val (ascii_of_N (48 + N.modulo n 10)) = Some (N.modulo n 10).
Proof. apply digit_val_lt10. apply N.mod_lt. discriminate. Qed.

Lemma parse_digits_digits f :
  forall n, (n < 10 ^ N.of_nat f)%N -> f <> O -> parse_digits 0 (digits f n "") = Some n.
Proof.
  induction f as [|f IH]; intros n Hn Hf; [contradiction|].
  pose proof (N.div_mod n 10 ltac:(discriminate)) as Hdm.
  cbn [digits]. destruct (N.div n 10 =? 0)%N eqn:Q.
  - apply N.eqb_eq in Q. cbn [parse_digits]. rewrite digit_val_digit. f_equal. lia.
  - apply N.eqb_neq in Q.
    rewrite digits_acc, parse_digits_app.
    destruct f as [|f'].
    + exfalso. simpl in Hn. apply Q. apply N.div_small. lia.
    + rewrite IH; [| |discriminate].
      * cbn [parse_digits]. rewrite digit_val_digit. f_equal. lia.
      * apply N.Div0.div_lt_upper_bound.
        rewrite Nat2N.inj_succ, N.pow_succ_r' in Hn. lia.
Qed.

Lemma pos_lt_pow2_size p : (N.pos p < 2 ^ N.of_nat (Pos.size_nat p))%N.
Proof.
  induction p as [p IH|p IH|]; cbn [Pos.size_nat]; rewrite ?Nat2N.inj_succ, ?N.pow_succ_r';
    try (simpl; lia).
  - change (N.pos p~1) with (2 * N.pos p + 1)%N. lia.
  - change (N.pos p~0) with (2 * N.pos p)%N. lia.
Qed.

Lemma N_lt_pow10_fuel n : (n < 10 ^ N.of_nat (S (N.size_nat n)))%N.
Proof.
  destruct n as [|p]; [simpl; lia|].
  cbn [N.size_nat]. rewrite Nat2N.inj_succ, N.pow_succ_r'.
  pose proof (pos_lt_pow2_size p) as H2.
  assert (Hle : (2 ^ N.of_nat (Pos.size_nat p) <= 10 ^ N.of_nat (Pos.size_nat p))%N)
    by (apply N.pow_le_mono_l; lia).
  lia.
Qed.

Lemma parse_N_to_dec n : parse_digits 0 (N_to_dec n) = Some n.
Proof.
  unfold N_to_dec. apply parse_digits_digits; [apply N_lt_pow10_fuel | discriminate].
Qed.

Lemma digits_nonempty f n : exists ch s, digits (S f) n "" = String ch s.
Proof.
  cbn [digits]. destruct (N.div n 10 =? 0)%N; [eauto|].
  rewrite digits_acc. destruct (digits f (n / 10) "") as [|ch s]; simpl; eauto.
Qed.

(** The decimal rendering of a natural number is non-empty and starts with
    a digit. *)
Lemma N_to_dec_shape n : exists ch s, N_to_dec n = String ch s /\ digit_val ch <> None.
Proof.
  destruct (digits_nonempty (N.size_nat n) n) as (ch & s & E).
  exists ch, s. unfold N_to_dec. split; [exact E|].
  intros D. pose proof (parse_N_to_dec n) as P. unfold N_to_dec in P.
  rewrite E in P. simpl in P. rewrite D in P. discriminate.
Qed.

Lemma parse_int_Z_to_dec z : parse_int (Z_to_dec z) = Some z.
Proof.
  unfold Z_to_dec. destruct (z <? 0) eqn:Neg.
  - apply Z.ltb_lt in Neg.
    destruct (N_to_dec_shape (Z.abs_N z)) as (ch & s & E & _).
    pose proof (parse_N_to_dec (Z.abs_N z)) as P.
    rewrite E in *. cbn [String.append]. unfold parse_int.
    rewrite P. simpl. f_equal. lia.
  - apply Z.ltb_ge in Neg.
    destruct (N_to_dec_shape (Z.to_N z)) as (ch & s & E & D).
    pose proof (parse_N_to_dec (Z.to_N z)) as P.
    rewrite E in *. unfold parse_int.
    assert (Hch : ch <> "-"%char) by (intros ->; apply D; reflexivity).
    assert (Hpar : option_map Z.of_N (parse_digits 0 (String ch s)) = Some z)
      by (rewrite P; simpl; f_equal; lia).
    destruct ch as [b0 b1 b2 b3 b4 b5 b6 b7].
    destruct b0, b1, b2, b3, b4, b5, b6, b7;
      first [exact Hpar | exfalso; apply Hch; reflexivity
            | destruct s; [apply D; reflexivity | exact Hpar]].
Qed.

(** The query string of a single-page [list_items] request reads back as
    the [limit] and [offset] it was called with, whatever their sign. *)
Theorem list_items_query_round_trip server H fuel c limit offset tr :
  exists r L O,
    fst (list_items server H fuel c limit offset false tr) = List.app tr [r] /\
    req_url r = WEBFLOW_URL ++ "/" ++ "collections/" ++ c ++ "/items?limit=" ++ L
                  ++ "&offset=" ++ O /\
    parse_int L = Some limit /\ parse_int O = Some offset.
Proof.
  cbn [list_items]. unfold list_items_page. rewrite webflow_request_run.
  eexists _, (Z_to_dec limit), (Z_to_dec offset). cbn [fst].
  split; [reflexivity|]. split; [reflexivity|].
  split; apply parse_int_Z_to_dec.
Qed.

Create HintDb okonly.

(** *** A call that returns saw only good responses *)

(** The response to [r] has a JSON body and a status [raise_for_status]
    lets through. *)
Definition answered_ok (server : request -> response) (r : request) : Prop :=
  content (server r) <> None /\ status_error (server r) = false.

(** When [m] returns normally, the requests it added were all answered
    well. *)
Definition ok_only {A} (server : request -> response) (m : M A) : Prop :=
  forall tr tr' a, m tr = (tr', Ok a) ->
  exists ex, tr' = List.app tr ex /\ Forall (answered_ok server) ex.

Lemma pure_ok_only {A} server (m : M A) :
  (forall tr tr' a, m tr = (tr', Ok a) -> tr' = tr) -> ok_only server m.
Proof. intros Hm tr tr' a E. apply Hm in E. subst. exists []. rewrite app_nil_r. auto. Qed.

Lemma bind_ok_only {A B} server (m : M A) (f : A -> M B) :
  ok_only server m -> (forall a, ok_only server (f a)) -> ok_only server (bind m f).
Proof.
  intros Hm Hf tr tr' b E. apply bind_ok_inv in E as (tr1 & a & E1 & E2).
  destruct (Hm _ _ _ E1) as (ex1 & -> & F1).
  destruct (Hf _ _ _ _ E2) as (ex2 & -> & F2).
  exists (List.app ex1 ex2). rewrite app_assoc. split; [reflexivity|].
  apply Forall_app. auto.
Qed.

Lemma webflow_request_ok_only server H method path j :
  ok_only server (_webflow_request server H method path j).
Proof.
  intros tr tr' a. rewrite webflow_request_run. cbv zeta.
  set (r := mk_request method (WEBFLOW_URL ++ "/" ++ path) H j).
  destruct (content (server r)) as [body|] eqn:C; [|discriminate].
  destruct (_ && _) eqn:S; [discriminate|].
  assert (Hr : answered_ok server r).
  { unfold answered_ok, status_error. rewrite C. split; [discriminate | exact S]. }
  intros E. injection E as <- _. exists [r]. split; [reflexivity|].
  constructor; [exact Hr | constructor].
Qed.

Lemma getitem_ok_only server v k : ok_only server (getitem v k).
Proof. apply pure_ok_only. intros tr tr' a E. apply getitem_ok in E. apply E. Qed.

Lemma as_int_ok_only server v : ok_only server (as_int v).
Proof. apply pure_ok_only. intros tr tr' a E. apply as_int_ok in E. apply E. Qed.

Lemma py_iter_ok_only server v : ok_only server (py_iter v).
Proof. apply pure_ok_only. intros tr tr' a E. apply py_iter_ok in E. apply E. Qed.

Lemma setitem_ok_only server v k x : ok_only server (setitem v k x).
Proof. apply pure_ok_only. intros tr tr' a E. apply setitem_ok in E. apply E. Qed.

Lemma ret_ok_only {A} server (a : A) : ok_only server (ret a).
Proof. apply pure_ok_only. intros tr tr' b E. inversion E. reflexivity. Qed.

Lemma out_of_fuel_ok_only {A} server : ok_only (A:=A) server out_of_fuel.
Proof. apply pure_ok_only. intros tr tr' b E. discriminate. Qed.

#[local] Hint Resolve getitem_ok_only as_int_ok_only py_iter_ok_only setitem_ok_only
  ret_ok_only out_of_fuel_ok_only webflow_request_ok_only : okonly.

Lemma list_items_loop_ok_only server H fuel c :
  forall o items resp, ok_only server (list_items_loop server H fuel c o items resp).
Proof.
  induction fuel as [|fuel IH]; intros o items resp; cbn [list_items_loop];
    (apply bind_ok_only; [auto with okonly|]; intros t;
     apply bind_ok_only; [auto with okonly|]; intros total;
     destruct (_ <? _); [|auto with okonly]).
  - auto with okonly.
  - apply bind_ok_only; [apply webflow_request_ok_only|]; intros r.
    apply bind_ok_only; [auto with okonly|]; intros it.
    apply bind_ok_only; [auto with okonly|]; intros l.
    apply IH.
Qed.

(** A call that returns a value got, to every request it sent, a JSON
    body with a status below 400 or from 600 up: no result is ever built
    from an error page, and [list_items(all=True)] returns nothing when
    any of its pages failed. *)
Theorem ok_calls_only_good_responses (server : request -> response)
    (H : list (string * string)) (fuel : nat) (c : call) (tr : list request) (v : json)
    (Hrun : run_call server H fuel c [] = (tr, Ok v)) :
  Forall (answered_ok server) tr.
Proof.
  assert (Hok : ok_only server (run_call server H fuel c)).
  { destruct c as [| | | | | | |cid l o [|]| | | | | | | | |]; cbn [run_call];
      try apply webflow_request_ok_only.
    cbn [list_items].
    apply bind_ok_only; [apply webflow_request_ok_only|]; intros r.
    apply bind_ok_only; [auto with okonly|]; intros it.
    apply bind_ok_only; [auto with okonly|]; intros l0.
    apply bind_ok_only; [apply list_items_loop_ok_only|]; intros [a r'].
    apply bind_ok_only; [auto with okonly|]; intros r1.
    apply bind_ok_only; [auto with okonly|]; intros r2.
    auto with okonly. }
  destruct (Hok _ _ _ Hrun) as (ex & -> & F). exact F.
Qed.

Lemma ok_calls_only_good_responses_witness :
  exists tr v, run_call server250 [] 2 (ListItems "col" 100 0 true) [] = (tr, Ok v) /\
  Forall (answered_ok server250) tr.
Proof.
  do 2 eexists. split; [vm_compute; reflexivity|].
  eapply (ok_calls_only_good_responses server250 [] 2 (ListItems "col" 100 0 true)).
  vm_compute. reflexivity.
Defined.

(** *** [list_items(all=True)] under any answers *)

Lemma getitem_shape v k tr : exists o, getitem v k tr = (tr, o).
Proof.
  destruct v as [| | | | |kvs]; cbv [getitem raise ret]; try (eexists; reflexivity).
  destruct (dict_get k kvs); eexists; reflexivity.
Qed.

Lemma as_int_shape v tr : exists o, as_int v tr = (tr, o).
Proof. destruct v; cbv [as_int py_iter setitem raise ret]; eexists; reflexivity. Qed.

Lemma py_iter_shape v tr : exists o, py_iter v tr = (tr, o).
Proof. destruct v; cbv [as_int py_iter setitem raise ret]; eexists; reflexivity. Qed.

Lemma setitem_shape v k x tr : exists o, setitem v k x tr = (tr, o).
Proof. destruct v; cbv [as_int py_iter setitem raise ret]; eexists; reflexivity. Qed.

Lemma page_shape server H c o tr :
  exists out, list_items_page server H c 100 o tr = (List.app tr [page_req H c o], out).
Proof.
  unfold list_items_page. rewrite webflow_request_run. cbv zeta.
  fold (page_req H c o). eauto.
Qed.

Lemma list_items_loop_trace server H fuel c :
  forall o items resp tr, exists k, (k <= fuel)%nat /\
    fst (list_items_loop server H fuel c o items resp tr) =
    List.app tr (map (fun i => page_req H c (o + 100 * Z.of_nat i)) (seq 1 k)).
Proof.
  induction fuel as [|fuel IH]; intros o items resp tr; cbn [list_items_loop];
    unfold bind at 1;
    destruct (getitem_shape resp "total" tr) as [[t|e|] E1]; rewrite E1;
    try (exists 0%nat; split; [lia | cbn; rewrite app_nil_r; reflexivity]);
    unfold bind at 1;
    destruct (as_int_shape t tr) as [[total|e|] E2]; rewrite E2;
    try (exists 0%nat; split; [lia | cbn; rewrite app_nil_r; reflexivity]);
    destruct (_ <? _);
    try (exists 0%nat; split; [lia | cbn; rewrite app_nil_r; reflexivity]).
  unfold bind at 1.
  destruct (page_shape server H c (o + 100) tr) as [[r|e|] E3]; rewrite E3;
    try (exists 1%nat; split; [lia | cbn [fst seq map];
         replace (o + 100 * Z.of_nat 1) with (o + 100) by lia; reflexivity]).
  unfold bind at 1.
  destruct (getitem_shape r "items" (List.app tr [page_req H c (o + 100)]))
    as [[it|e|] E4]; rewrite E4;
    try (exists 1%nat; split; [lia | cbn [fst seq map];
         replace (o + 100 * Z.of_nat 1) with (o + 100) by lia; reflexivity]).
  unfold bind at 1.
  destruct (py_iter_shape it (List.app tr [page_req H c (o + 100)]))
    as [[l|e|] E5]; rewrite E5;
    try (exists 1%nat; split; [lia | cbn [fst seq map];
         replace (o + 100 * Z.of_nat 1) with (o + 100) by lia; reflexivity]).
  destruct (IH (o + 100) (List.app items l) r (List.app tr [page_req H c (o + 100)]))
    as (k & Hk & Htr).
  exists (S k). split; [lia|]. rewrite Htr, <- app_assoc. f_equal.
  cbn [seq map List.app].
  rewrite (map_offsets_shift (page_req H c) o 1 k).
  replace (o + 100 * Z.of_nat 1) with (o + 100) by lia. reflexivity.
Qed.

(** Whatever the server answers, errors and malformed pages included,
    [list_items(all=True)] sends only GETs of consecutive pages of 100
    at offsets [offset], [offset+100], [offset+200], ..., at most one more
    than its iteration budget, and nothing else. *)
Theorem list_items_all_trace (server : request -> response)
    (H : list (string * string)) (fuel : nat) (c : string) (limit offset : Z) :
  exists k, (k <= fuel)%nat /\
    fst (list_items server H fuel c limit offset true []) =
    map (fun i => page_req H c (offset + 100 * Z.of_nat i)) (seq 0 (S k)).
Proof.
  cbn [list_items]. unfold bind at 1.
  destruct (page_shape server H c offset []) as [[r|e|] E1]; cbn [List.app] in E1; rewrite E1;
    try (exists 0%nat; split; [lia | cbn; rewrite Z.add_0_r; reflexivity]).
  unfold bind at 1.
  destruct (getitem_shape r "items" [page_req H c offset]) as [[it|e|] E2]; rewrite E2;
    try (exists 0%nat; split; [lia | cbn; rewrite Z.add_0_r; reflexivity]).
  unfold bind at 1.
  destruct (py_iter_shape it [page_req H c offset]) as [[l|e|] E3]; rewrite E3;
    try (exists 0%nat; split; [lia | cbn; rewrite Z.add_0_r; reflexivity]).
  destruct (list_items_loop_trace server H fuel c offset l r [page_req H c offset])
    as (k & Hk & Htr).
  exists k. split; [exact Hk|].
  assert (Hseq : map (fun i => page_req H c (offset + 100 * Z.of_nat i)) (seq 0 (S k)) =
                 List.app [page_req H c offset]
                   (map (fun i => page_req H c (offset + 100 * Z.of_nat i)) (seq 1 k))).
  { cbn [seq map]. rewrite Z.add_0_r. reflexivity. }
  rewrite Hseq, <- Htr.
  unfold bind at 1.
  destruct (list_items_loop server H fuel c offset l r [page_req H c offset])
    as [tr1 [[a r1]|e|]]; cbn [fst]; [|reflexivity|reflexivity].
  unfold bind at 1.
  destruct (setitem_shape r1 "items" (JArr a) tr1) as [[r2|e|] E4]; rewrite E4;
    [|reflexivity|reflexivity].
  unfold bind at 1.
  destruct (setitem_shape r2 "count" (JNum (Z.of_nat (List.length a))) tr1)
    as [[r3|e|] E5]; rewrite E5; reflexivity.
Qed.

(** *** [list_items(all=True)] ends when every page makes progress *)

(** A page [raise_for_status] lets through, with at least one item and the
    given [total]. *)
Definition steady_page (T : Z) (res : response) : Prop :=
  status_error res = false /\
  exists kvs l, content res = Some (JObj kvs) /\ dict_get "items" kvs = Some (JArr l) /\
    l <> [] /\ dict_get "total" kvs = Some (JNum T).

Lemma page_good server H c o tr j :
  content (server (page_req H c o)) = Some j -> status_error (server (page_req H c o)) = false ->
  list_items_page server H c 100 o tr = (List.app tr [page_req H c o], Ok j).
Proof.
  intros Hc Hs. unfold list_items_page. rewrite webflow_request_run. cbv zeta.
  fold (page_req H c o). unfold status_error in Hs. rewrite Hc, Hs. reflexivity.
Qed.

Lemma list_items_loop_steady server H c T
    (Hsteady : forall o, steady_page T (server (page_req H c o))) :
  forall fuel o items kvs tr, dict_get "total" kvs = Some (JNum T) ->
    (Z.to_nat T - List.length items <= fuel)%nat ->
    exists tr' all kvs', list_items_loop server H fuel c o items (JObj kvs) tr =
                         (tr', Ok (all, JObj kvs')).
Proof.
  induction fuel as [|fuel IH]; intros o items kvs tr Ht Hle; cbn [list_items_loop];
    cbv [bind getitem as_int ret]; rewrite Ht; cbv beta iota;
    destruct (Z.of_nat (List.length items) <? T) eqn:L; eauto.
  - apply Z.ltb_lt in L. lia.
  - destruct (Hsteady (o + 100)) as (Hs & kvs' & l & Hc & Hi & Hne & Ht').
    rewrite (page_good server H c (o + 100) tr _ Hc Hs). cbv beta iota.
    rewrite Hi. cbv [py_iter ret]. cbv beta iota.
    apply IH; [exact Ht'|].
    apply Z.ltb_lt in L. rewrite length_app.
    destruct l as [|x l]; [contradiction|]. cbn [List.length]. lia.
Qed.

(** If every page the server serves has a [total] of [T] and at least one
    item, [list_items(all=True)] returns within [T] iterations of its
    loop (compare the empty-page case, where it never does). *)
Theorem list_items_all_terminates (server : request -> response)
    (H : list (string * string)) (c : string) (limit offset T : Z) (fuel : nat)
    (Hsteady : forall o, steady_page T (server (page_req H c o)))
    (Hfuel : (Z.to_nat T <= fuel)%nat) :
  exists tr v, list_items server H fuel c limit offset true [] = (tr, Ok v).
Proof.
  rewrite list_items_all_first_page.
  destruct (Hsteady offset) as (Hs & kvs & l & Hc & Hi & Hne & Ht).
  rewrite Hc, Hs. cbv [bind getitem py_iter ret]. rewrite Hi. cbv beta iota.
  destruct (list_items_loop_steady server H c T Hsteady fuel offset l kvs
              [page_req H c offset] Ht ltac:(lia)) as (tr' & all & kvs' & E).
  rewrite E. cbv [setitem ret bind]. cbv beta iota. eexists _, _. reflexivity.
Qed.

(** A server whose every page holds one item and says there are [T]. *)
Definition one_item_server (T : Z) (r : request) : response :=
  mk_response 200 (Some (JObj [("items", JArr [JNum 0]); ("total", JNum T)])).

Lemma list_items_all_terminates_witness :
  (forall o, steady_page 3 (one_item_server 3 (page_req [] "col" o))) /\
  (Z.to_nat 3 <= 3)%nat /\
  exists tr v, list_items (one_item_server 3) [] 3 "col" 100 0 true [] = (tr, Ok v).
Proof.
  assert (Hs : forall o, steady_page 3 (one_item_server 3 (page_req [] "col" o))).
  { intros o. split; [reflexivity|].
    exists [("items", JArr [JNum 0]); ("total", JNum 3)], [JNum 0].
    repeat split; first [reflexivity | discriminate]. }
  split; [exact Hs|]. split; [simpl; lia|].
  apply (list_items_all_terminates (one_item_server 3) [] "col" 100 0 3 3 Hs).
  simpl. lia.
Defined.

(** ** The amended claims on the [all=True] loop and on the token *)

Lemma getitem_present kvs k v tr :
  dict_get k kvs = Some v -> getitem (JObj kvs) k tr = (tr, Ok v).
Proof. intros E. cbv [getitem]. rewrite E. reflexivity. Qed.

Lemma as_int_py_int v z tr : py_int v = Some z -> as_int v tr = (tr, Ok z).
Proof. destruct v; cbn; intros E; inversion E; reflexivity. Qed.

(** The decision of the [while] loop: with [tot] the [total] of the page
    last seen, the loop returns at once, without a request, when the
    accumulated count reaches [tot]; otherwise it needs another iteration,
    which requests the next page. *)
Lemma list_items_loop_decision server H c fuel o items kvs t tot tr :
  dict_get "total" kvs = Some t -> py_int t = Some tot ->
  (tot <= Z.of_nat (List.length items) ->
   list_items_loop server H fuel c o items (JObj kvs) tr = (tr, Ok (items, JObj kvs))) /\
  (Z.of_nat (List.length items) < tot ->
   list_items_loop server H 0 c o items (JObj kvs) tr = (tr, NoFuel) /\
   forall fuel', exists ex out,
     list_items_loop server H (S fuel') c o items (JObj kvs) tr =
     (List.app tr (page_req H c (o + 100) :: ex), out)).
Proof.
  intros Ht Htot. split.
  - intros Hle. apply Z.ltb_ge in Hle.
    destruct fuel; cbn [list_items_loop]; unfold bind at 1;
      rewrite (getitem_present _ _ _ tr Ht); cbv beta iota; unfold bind at 1;
      rewrite (as_int_py_int _ _ tr Htot); cbv beta iota; rewrite Hle; reflexivity.
  - intros Hlt. apply Z.ltb_lt in Hlt. split.
    { cbn [list_items_loop]; unfold bind at 1;
      rewrite (getitem_present _ _ _ tr Ht); cbv beta iota; unfold bind at 1;
      rewrite (as_int_py_int _ _ tr Htot); cbv beta iota; rewrite Hlt; reflexivity. }
    intros fuel'.
    cbn [list_items_loop]; unfold bind at 1;
      rewrite (getitem_present _ _ _ tr Ht); cbv beta iota; unfold bind at 1;
      rewrite (as_int_py_int _ _ tr Htot); cbv beta iota; rewrite Hlt.
    unfold bind at 1.
    destruct (page_shape server H c (o + 100) tr) as [[r|e|] E]; rewrite E;
      cbv beta iota; try (exists []; eexists; reflexivity).
    pose (Rest := it <- getitem r "items" ;; items0 <- py_iter it ;;
                  list_items_loop server H fuel' c (o + 100) (List.app items items0) r).
    assert (Hrest : adds_at_most (0 + (0 + fuel')) Rest).
    { apply bind_adds; [apply getitem_adds | intros it].
      apply bind_adds; [apply py_iter_adds | intros l].
      apply list_items_loop_adds. }
    destruct (Hrest (List.app tr [page_req H c (o + 100)])) as (ex & Eex & _).
    exists ex.
    change (exists out, Rest (List.app tr [page_req H c (o + 100)]) =
                        (List.app tr (page_req H c (o + 100) :: ex), out)).
    destruct (Rest (List.app tr [page_req H c (o + 100)])) as [tr' out].
    cbn [fst] in Eex. subst tr'. exists out. rewrite <- app_assoc. reflexivity.
Qed.

(** Every page the server serves is a good dict with no items and a
    positive [total] (the [total] may differ from page to page). *)
Definition empty_pages (server : request -> response) (H : list (string * string))
    (c : string) : Prop :=
  forall o, exists kvs t,
    content (server (page_req H c o)) = Some (JObj kvs) /\
    status_error (server (page_req H c o)) = false /\
    dict_get "items" kvs = Some (JArr []) /\ dict_get "total" kvs = Some (JNum t) /\
    0 < t.

Lemma list_items_loop_empty_pages_trace server H c (Hempty : empty_pages server H c) :
  forall fuel o kvs t tr, dict_get "total" kvs = Some (JNum t) -> 0 < t ->
    list_items_loop server H fuel c o [] (JObj kvs) tr =
    (List.app tr (map (fun i => page_req H c (o + 100 * Z.of_nat i)) (seq 1 fuel)), NoFuel).
Proof.
  induction fuel as [|fuel IH]; intros o kvs t tr Ht Hpos;
    cbn [list_items_loop]; unfold bind at 1;
    rewrite (getitem_present _ _ _ tr Ht); cbv beta iota; unfold bind at 1;
    rewrite (as_int_py_int (JNum t) t tr eq_refl); cbv beta iota;
    replace (Z.of_nat (List.length (@nil json)) <? t) with true
      by (symmetry; apply Z.ltb_lt; cbn; lia).
  - cbn. rewrite app_nil_r. reflexivity.
  - destruct (Hempty (o + 100)) as (kvs' & t' & Hc & Hs & Hi & Ht' & Hpos').
    unfold bind at 1. rewrite (page_good server H c (o + 100) tr _ Hc Hs). cbv beta iota.
    unfold bind at 1. rewrite (getitem_present _ _ _ _ Hi). cbv beta iota.
    unfold bind at 1. rewrite (py_iter_some (JArr []) [] _ eq_refl). cbv beta iota.
    cbn [List.app]. rewrite (IH (o + 100) kvs' t' _ Ht' Hpos').
    f_equal. rewrite <- app_assoc. f_equal. cbn [seq map List.app].
    rewrite (map_offsets_shift (page_req H c) o 1 fuel).
    replace (o + 100 * Z.of_nat 1) with (o + 100) by lia. reflexivity.
Qed.

(** C2 (as amended): the [all=True] loop has no guard on empty pages.
    Its only exit is the comparison of the accumulated count with the
    [total] of the page last seen: it returns at once, with no further
    request, when the count reaches that [total], and otherwise requests the
    next page (or, with no iteration left, does not finish).  So when every
    page is a good dict with no items and a positive [total], no number of
    iterations is enough: the run never finishes, and with budget [fuel] it
    has requested the pages at [offset], [offset+100], ...,
    [offset+100*fuel], in that order. *)
Theorem list_items_all_empty_pages_diverge (server : request -> response)
    (H : list (string * string)) (c : string) (limit offset : Z)
    (Hempty : empty_pages server H c) :
  (forall server' fuel o items kvs t tot tr,
     dict_get "total" kvs = Some t -> py_int t = Some tot ->
     (tot <= Z.of_nat (List.length items) ->
      list_items_loop server' H fuel c o items (JObj kvs) tr = (tr, Ok (items, JObj kvs))) /\
     (Z.of_nat (List.length items) < tot ->
      list_items_loop server' H 0 c o items (JObj kvs) tr = (tr, NoFuel) /\
      forall fuel', exists ex out,
        list_items_loop server' H (S fuel') c o items (JObj kvs) tr =
        (List.app tr (page_req H c (o + 100) :: ex), out))) /\
  (forall fuel,
     list_items server H fuel c limit offset true [] =
     (map (fun i => page_req H c (offset + 100 * Z.of_nat i)) (seq 0 (S fuel)), NoFuel)).
Proof.
  split.
  - intros server' fuel o items kvs t tot tr Ht Htot.
    exact (list_items_loop_decision server' H c fuel o items kvs t tot tr Ht Htot).
  - intros fuel. rewrite list_items_all_first_page.
    destruct (Hempty offset) as (kvs & t & Hc & Hs & Hi & Ht & Hpos).
    rewrite Hc, Hs. cbv beta iota.
    unfold bind at 1. rewrite (getitem_present _ _ _ _ Hi). cbv beta iota.
    unfold bind at 1. rewrite (py_iter_some (JArr []) [] _ eq_refl). cbv beta iota.
    unfold bind at 1.
    rewrite (list_items_loop_empty_pages_trace server H c Hempty fuel offset kvs t _ Ht Hpos).
    cbv beta iota. cbn [seq map List.app]. rewrite Z.add_0_r. reflexivity.
Qed.

Lemma list_items_all_empty_pages_diverge_witness :
  empty_pages (fun _ => mk_response 200 (Some (empty_page 1))) [] "col" /\
  forall fuel,
    list_items (fun _ => mk_response 200 (Some (empty_page 1))) [] fuel "col" 100 0 true [] =
    (map (fun i => page_req [] "col" (0 + 100 * Z.of_nat i)) (seq 0 (S fuel)), NoFuel).
Proof.
  assert (He : empty_pages (fun _ => mk_response 200 (Some (empty_page 1))) [] "col").
  { intros o. exists [("items", JArr []); ("total", JNum 1)], 1.
    repeat split; first [reflexivity | lia]. }
  split; [exact He|].
  exact (proj2 (list_items_all_empty_pages_diverge
                  (fun _ => mk_response 200 (Some (empty_page 1))) [] "col" 100 0 He)).
Defined.

(** Every request of a call carries the client's headers. *)
Lemma run_call_headers server H fuel c :
  Forall (fun r => req_headers r = H) (fst (run_call server H fuel c [])).
Proof.
  assert (Hpage : forall cid o,
             preserves (fun r => req_headers r = H) (list_items_page server H cid 100 o)).
  { intros cid o. apply webflow_request_preserves. reflexivity. }
  destruct c; simpl run_call;
    try (apply webflow_request_preserves; [reflexivity | constructor]).
  destruct all.
  - apply list_items_all_preserves; [exact (Hpage collection_id) | constructor].
  - apply webflow_request_preserves; [reflexivity | constructor].
Qed.

(** Every call sends at least one request. *)
Lemma run_call_sends server H fuel c : fst (run_call server H fuel c []) <> [].
Proof.
  destruct (single_call c) eqn:Hs.
  - destruct (single_call_run server H fuel c Hs) as (r & -> & _). discriminate.
  - destruct c as [| | | | | | |cid limit offset [|]| | | | | | | | |]; try discriminate.
    cbn [run_call list_items].
    unfold bind at 1.
    destruct (page_shape server H cid offset []) as [out E]. rewrite E.
    destruct out as [j|e|]; cbn [List.app]; try discriminate.
    assert (Hadd : adds_at_most (0 + (0 + (fuel + (0 + (0 + 0)))))
      (it <- getitem j "items" ;; all_items <- py_iter it ;;
       r <- list_items_loop server H fuel cid offset all_items j ;;
       let '(all_items, resp) := r in
       resp <- setitem resp "items" (JArr all_items) ;;
       resp <- setitem resp "count" (JNum (Z.of_nat (List.length all_items))) ;;
       ret resp)).
    { apply bind_adds; [apply getitem_adds | intros it].
      apply bind_adds; [apply py_iter_adds | intros l].
      apply bind_adds; [apply list_items_loop_adds | intros [all resp]].
      apply bind_adds; [apply setitem_adds | intros r1].
      apply bind_adds; [apply setitem_adds | intros r2].
      apply ret_adds. }
    destruct (Hadd [page_req H cid offset]) as (ex & Eex & _).
    rewrite Eex. discriminate.
Qed.

(** C3 (as amended): without a [WEBFLOW_API_KEY] setting, loading the class
    raises [AttributeError] and no call issues any request.  A token that is
    present is not checked: with an empty token the class loads without a
    configuration error, every call runs as with any other token and sends
    at least one request, and every request it sends carries the header
    [Authorization: Bearer ] (with the other two client headers). *)
Theorem missing_or_empty_token (server : request -> response) (fuel : nat) :
  (forall c, client None server fuel c =
             ([], Err (AttributeError "WEBFLOW_API_KEY"))) /\
  (forall c,
     let H0 := [("Accept-Version", "1.0.0"); ("Authorization", "Bearer ");
                ("content-type", "application/json")] in
     client (Some "") server fuel c = run_call server H0 fuel c [] /\
     fst (client (Some "") server fuel c) <> [] /\
     Forall (fun r => req_headers r = H0) (fst (client (Some "") server fuel c))).
Proof.
  split; [intros c; reflexivity|].
  intros c H0.
  assert (E : client (Some "") server fuel c = run_call server H0 fuel c [])
    by reflexivity.
  rewrite E. split; [reflexivity|]. split.
  - apply run_call_sends.
  - apply run_call_headers.
Qed.
